(** * pcr_watch: the notification coalescer, the verification solver and the
    rank watch loop of [pcr_watch.py], as a shallow embedding.

    Effects are made explicit.  Everything the program does to the outside is
    appended to a [trace] of events, oldest first; the objects it mutates
    (the [WorkWx] queue, the rank cache, the two error counters, the stop
    event) are fields of a state that is passed along.  What the outside
    answers (the wall clock, the webhook, the solver service, the profile RPC,
    the session SDK, the conversion of a text by [int], a signal) is an
    argument of the function that asks for it; a request to the outside may
    raise, and may be where an interruption is taken. *)

From Stdlib Require Import ZArith List String Ascii Bool Lia Arith.
From Stdlib Require Import DecimalString SpecFloat.
Import ListNotations.
Set Warnings "-register-all,-implicit-create-rewrite-hint-db".
Local Open Scope string_scope.
Local Open Scope Z_scope.

(** ** Python strings and numbers *)

(** The newline character of the Python literals ["\n"]. *)
Definition LF : string := String (ascii_of_nat 10) EmptyString.

(** [str(z)] of a Python integer: decimal digits, a leading [-] when negative. *)
Definition str_of_Z (z : Z) : string := NilZero.string_of_int (Z.to_int z).

(** [sep.join(l)]. *)
Definition join (sep : string) (l : list string) : string := String.concat sep l.

(** [needle in hay] on two Python strings. *)
Fixpoint contains (needle hay : string) : bool :=
  if String.prefix needle hay then true
  else match hay with
       | EmptyString => false
       | String _ rest => contains needle rest
       end.

(** The lines of a text, split at every newline. *)
Fixpoint lines_from (cur : string) (s : string) : list string :=
  match s with
  | EmptyString => [cur]
  | String c rest =>
      if Ascii.eqb c (ascii_of_nat 10) then cur :: lines_from EmptyString rest
      else lines_from (cur ++ String c EmptyString) rest
  end.

Definition lines (s : string) : list string := lines_from EmptyString s.

(** ** Decoded JSON and the Python operations the solver applies to it

    What [json.loads] gives back.  A number without fraction or exponent is a
    Python [int]; any other number is a [float], kept as the binary
    floating-point value it denotes. *)

Inductive json : Type :=
| JNull
| JBool (b : bool)
| JInt (z : Z)
| JFloat (f : spec_float)
| JStr (s : string)
| JList (items : list json)
| JObj (members : list (string * json)).

(** The exceptions the program meets.  [CancelledError] stands for the two
    that are no [Exception]: [asyncio.CancelledError] and
    [KeyboardInterrupt]; an [except Exception] lets them through. *)
Inductive exn : Type :=
| KeyError (key : string)
| TypeError
| ValueError
| AttributeError
| OverflowError
| TransportError (text : string)   (* raised by an HTTP client, [json.loads] or the SDK *)
| CancelledError.

(** [isinstance(e, Exception)]. *)
Definition is_exception (e : exn) : bool :=
  match e with
  | CancelledError => false
  | _ => true
  end.

(** A text whose [repr] is the text between single quotes: printable ASCII
    without quote and backslash. *)
Fixpoint plain (s : string) : bool :=
  match s with
  | EmptyString => true
  | String c rest =>
      let n := nat_of_ascii c in
      (Nat.leb 32 n && Nat.leb n 126 && negb (Nat.eqb n 39) && negb (Nat.eqb n 92)
       && plain rest)%bool
  end.

(** [str(e)], where the program fixes it: the text an error of the outside
    carries, the [repr] of the key of a [KeyError].  The text of the other
    built-in errors is the interpreter's. *)
Definition exn_text (e : exn) : option string :=
  match e with
  | TransportError text => Some text
  | KeyError key => if plain key then Some ("'" ++ key ++ "'") else None
  | _ => None
  end.

(** [text] can be [str(e)]. *)
Definition exn_says (e : exn) (text : string) : Prop :=
  forall t, exn_text e = Some t -> text = t.

Inductive result (A : Type) : Type :=
| Ok (a : A)
| Raise (e : exn).

Arguments Ok {A} a.
Arguments Raise {A} e.

(** What an HTTP GET followed by [json.loads] gives back. *)
Inductive http_reply : Type :=
| HttpRaises (e : exn)
| HttpJson (body : json).

(** [bool(v)]: the test of an [if v] or [if x := v]. *)
Definition truthy (v : json) : bool :=
  match v with
  | JNull => false
  | JBool b => b
  | JInt z => negb (z =? 0)
  | JFloat f => match f with S754_zero _ => false | _ => true end
  | JStr s => negb (String.eqb s "")
  | JList items => match items with [] => false | _ => true end
  | JObj members => match members with [] => false | _ => true end
  end.

Fixpoint dict_lookup (key : string) (members : list (string * json)) : option json :=
  match members with
  | [] => None
  | (k, v) :: rest => if String.eqb k key then Some v else dict_lookup key rest
  end.

(** [d.get(key)]: [None] (here [JNull]) when the key is missing; only a dict
    has the method. *)
Definition py_get (d : json) (key : string) : result json :=
  match d with
  | JObj members =>
      Ok (match dict_lookup key members with Some v => v | None => JNull end)
  | _ => Raise AttributeError
  end.

(** [d[key]] with a string key. *)
Definition py_getitem (d : json) (key : string) : result json :=
  match d with
  | JObj members =>
      match dict_lookup key members with
      | Some v => Ok v
      | None => Raise (KeyError key)
      end
  | _ => Raise TypeError
  end.

(** [v == s] for a string literal [s]. *)
Definition json_eq_str (v : json) (s : string) : bool :=
  match v with
  | JStr t => String.eqb t s
  | _ => false
  end.

(** [needle in v] for a string literal [needle]. *)
Definition py_in (needle : string) (v : json) : result bool :=
  match v with
  | JStr s => Ok (contains needle s)
  | JObj members => Ok (existsb (fun kv => String.eqb (fst kv) needle) members)
  | JList items => Ok (existsb (fun x => json_eq_str x needle) items)
  | _ => Raise TypeError
  end.

(** [int(f)] of a float: the fraction is cut off, towards zero. *)
Definition int_of_float (f : spec_float) : result Z :=
  match f with
  | S754_zero _ => Ok 0
  | S754_infinity _ => Raise OverflowError
  | S754_nan => Raise ValueError
  | S754_finite s m e =>
      let n := Z.shiftl (Z.pos m) e in
      Ok (if s then - n else n)
  end.

Section Builtins.

(** [int(s)] of a text, [None] for a [ValueError].  Which literals are
    converted is the interpreter's matter (blanks, underscores, the decimal
    digits of its Unicode tables, a limit on the length): the conversion is an
    argument, and nothing below depends on what it answers. *)
Variable int_of_str : string -> option Z.

(** [int(v)]. *)
Definition py_int (v : json) : result Z :=
  match v with
  | JInt z => Ok z
  | JBool b => Ok (if b then 1 else 0)
  | JFloat f => int_of_float f
  | JStr s => match int_of_str s with Some z => Ok z | None => Raise ValueError end
  | _ => Raise TypeError
  end.

End Builtins.

(** ** Events and the notification channel ([class WorkWx]) *)

Inductive event : Type :=
| EvPut (message : string)          (* [queue.put(message)] *)
| EvPost (content : string)         (* webhook POST made, [text.content] *)
| EvSleep (seconds : Z)             (* [asyncio.sleep(seconds)] *)
| EvSubmit (verify_url : string)    (* GET on the submission endpoint *)
| EvCheck (verify_uuid : json)      (* GET on the status endpoint of that uuid *)
| EvQuery (user_id : Z)             (* profile RPC *)
| EvCacheSet (user_id : Z) (ranks : Z * Z).  (* [pcr_cache[user_id] = ranks] *)

(** The [WorkWx] object together with what has been observed so far.
    [clock] counts the reads of [datetime.now()]. *)
Record world : Type := mkWorld {
  queue : list string;
  trace : list event;
  clock : nat
}.

Definition emit (e : event) (w : world) : world :=
  mkWorld (queue w) (trace w ++ [e])%list (clock w).

Definition sleep (seconds : Z) (w : world) : world := emit (EvSleep seconds) w.

(** The contents of the webhook deliveries among some events, oldest first. *)
Fixpoint posts (tr : list event) : list string :=
  match tr with
  | [] => []
  | EvPost c :: tr' => c :: posts tr'
  | _ :: tr' => posts tr'
  end.

(** The messages put on the queue among some events, oldest first. *)
Fixpoint puts (tr : list event) : list string :=
  match tr with
  | [] => []
  | EvPut m :: tr' => m :: puts tr'
  | _ :: tr' => puts tr'
  end.

(** The arguments of the sleeps among some events, oldest first. *)
Fixpoint sleeps (tr : list event) : list Z :=
  match tr with
  | [] => []
  | EvSleep s :: tr' => s :: sleeps tr'
  | _ :: tr' => sleeps tr'
  end.

(** The number of status polls among some events. *)
Fixpoint checks (tr : list event) : nat :=
  match tr with
  | [] => O
  | EvCheck _ :: tr' => S (checks tr')
  | _ :: tr' => checks tr'
  end.

(** The number of submissions among some events. *)
Fixpoint submits (tr : list event) : nat :=
  match tr with
  | [] => O
  | EvSubmit _ :: tr' => S (submits tr')
  | _ :: tr' => submits tr'
  end.

(** The seconds slept in total among some events. *)
Definition total_sleep (tr : list event) : Z := fold_right Z.add 0 (sleeps tr).

Definition is_put (e : event) : bool :=
  match e with EvPut _ => true | _ => false end.

Definition is_cache_set (e : event) : bool :=
  match e with EvCacheSet _ _ => true | _ => false end.

(** Some event that satisfies [p] comes earlier in [tr] than some event that
    satisfies [q]. *)
Fixpoint occurs_before (p q : event -> bool) (tr : list event) : bool :=
  match tr with
  | [] => false
  | e :: tr' => ((p e && existsb q tr') || occurs_before p q tr')%bool
  end.

(** A text without a newline. *)
Fixpoint one_line (s : string) : bool :=
  match s with
  | EmptyString => true
  | String c rest => (negb (Ascii.eqb c (ascii_of_nat 10)) && one_line rest)%bool
  end.

Definition marker : string := "【PCR】".

(** [while not self.queue.empty(): messages.append(await self.queue.get())] *)
Fixpoint drain (q : list string) (messages : list string)
  : list string * list string :=
  match q with
  | [] => ([], messages)
  | m :: q' => drain q' (messages ++ [m])%list
  end.

(** ** A state-and-exception monad over [world]

    An exception leaves the effects that happened before it in place. *)

Definition M (A : Type) : Type := world -> result A * world.

Definition ret {A : Type} (a : A) : M A := fun w => (Ok a, w).

Definition raise {A : Type} (e : exn) : M A := fun w => (Raise e, w).

Definition bind {A B : Type} (m : M A) (k : A -> M B) : M B :=
  fun w =>
    match m w with
    | (Ok a, w') => k a w'
    | (Raise e, w') => (Raise e, w')
    end.

(** An effect that cannot fail. *)
Definition lift (f : world -> world) : M unit := fun w => (Ok tt, f w).

(** A pure step that can raise. *)
Definition try {A : Type} (r : result A) : M A := fun w => (r, w).

Notation "x <- m ;; k" := (bind m (fun x => k))
  (at level 61, m at next level, right associativity).
Notation "m ;;; k" := (bind m (fun _ => k))
  (at level 61, right associativity).

(** [await asyncio.sleep(seconds)] at a place where the wait can be
    interrupted: the sleep is begun, and returns or raises. *)
Definition asyncio_sleep (seconds : Z) (outcome : option exn) : M unit :=
  fun w =>
    (match outcome with None => Ok tt | Some e => Raise e end, sleep seconds w).

(** ** The verification solver ([PcrWatcher._verify_captcha]) *)

Definition token : Type := (json * json * json)%type.

(** How one pass through the body of the inner [while] ends. *)
Inductive check_flow : Type :=
| CheckAgain                 (* [continue], or the end of the body *)
| CheckBreak                 (* [break] *)
| CheckReturn (t : token).   (* [return (...)] *)

(** ** The watcher ([class PcrWatcher]) *)

(** What the body of the [try] of one user meets, from [self.query(user_id)]
    to the comparison of the ranks ([text] is [str(e)]):
    - the RPC, or the lookup of [user_info] in its answer, raises an
      [Exception], before the counters are reset;
    - the wait for the RPC is interrupted;
    - the answer has its [user_info], but a field of it is missing or is no
      number: the lookups or the subtraction that follow the reset of the
      counters raise;
    - the answer is a profile with its three fields. *)
Inductive query_reply : Type :=
| QueryRaises (text : string)
| QueryCancelled
| QueryMalformed (text : string)
| QueryProfile (user_name : string) (arena_rank grand_arena_rank : Z).

(** The attributes of a [PcrWatcher]; [workwx] carries the trace. *)
Record watcher : Type := mkWatcher {
  pcr_cache : list (Z * (Z * Z));
  user_query_error_count : nat;
  user_notify_error_count : nat;
  watch_event : bool;
  workwx : world
}.

(** [pcr_cache[user_id]], read. *)
Fixpoint cache_get (user_id : Z) (cache : list (Z * (Z * Z))) : option (Z * Z) :=
  match cache with
  | [] => None
  | (k, v) :: rest => if k =? user_id then Some v else cache_get user_id rest
  end.

(** [pcr_cache[user_id] = ranks]: the entry keeps its place, a new key goes
    last. *)
Fixpoint cache_set (user_id : Z) (ranks : Z * Z) (cache : list (Z * (Z * Z)))
  : list (Z * (Z * Z)) :=
  match cache with
  | [] => [(user_id, ranks)]
  | (k, v) :: rest =>
      if k =? user_id then (k, ranks) :: rest
      else (k, v) :: cache_set user_id ranks rest
  end.

(** [{watch_id: (0, 0) for watch_id in watch_ids}] *)
Definition init_cache (watch_ids : list Z) : list (Z * (Z * Z)) :=
  fold_left (fun cache watch_id => cache_set watch_id (0, 0) cache) watch_ids [].

Definition with_workwx (f : world -> world) (st : watcher) : watcher :=
  mkWatcher (pcr_cache st) (user_query_error_count st)
    (user_notify_error_count st) (watch_event st) (f (workwx st)).

Definition with_counts (query_errors notify_errors : nat) (st : watcher) : watcher :=
  mkWatcher (pcr_cache st) query_errors notify_errors (watch_event st) (workwx st).

Definition with_cache (cache : list (Z * (Z * Z))) (st : watcher) : watcher :=
  mkWatcher cache (user_query_error_count st) (user_notify_error_count st)
    (watch_event st) (workwx st).

(** A computation on the channel, run on the channel of the watcher. *)
Definition in_workwx {A : Type} (m : M A) (st : watcher) : result A * watcher :=
  let '(r, w) := m (workwx st) in
  (r, with_workwx (fun _ => w) st).

(** [self.pcr_cache[user_id] = ranks], recorded in the trace. *)
Definition store_ranks (user_id : Z) (ranks : Z * Z) (st : watcher) : watcher :=
  with_workwx (emit (EvCacheSet user_id ranks))
    (with_cache (cache_set user_id ranks (pcr_cache st)) st).

(** [watch_stop]: the handler of SIGTERM and of an interruption. *)
Definition watch_stop (st : watcher) : watcher :=
  mkWatcher (pcr_cache st) (user_query_error_count st)
    (user_notify_error_count st) true (workwx st).

(** The watcher after a stretch of the program in which SIGTERM arrived
    ([stop]) or not: the handler only sets the event, which the program reads
    at the tests of its two [while] loops. *)
Definition signalled (stop : bool) (st : watcher) : watcher :=
  if stop then watch_stop st else st.

(** The part of the change message for one board. *)
Definition board_change (board : string) (user_rank query_rank : Z) : string :=
  let change_diff := user_rank - query_rank in
  let change_symbol := if change_diff <? 0 then "↓" else "↑" in
  LF ++ board
  ++ "（ " ++ change_symbol ++ " " ++ str_of_Z (Z.abs change_diff) ++ " ）："
  ++ str_of_Z user_rank ++ " ➜ " ++ str_of_Z query_rank.

(** The change message of a user whose ranks moved. *)
Definition change_message (query_user_name : string)
  (user_jjc_rank user_pjjc_rank query_jjc_rank query_pjjc_rank : Z) : string :=
  let change_jjc := negb (user_jjc_rank =? query_jjc_rank) in
  let change_pjjc := negb (user_pjjc_rank =? query_pjjc_rank) in
  let message := "排名变动：" ++ query_user_name in
  let message :=
    if change_jjc
    then message ++ board_change "普通竞技场" user_jjc_rank query_jjc_rank
    else message in
  if change_pjjc
  then message ++ board_change "公主竞技场" user_pjjc_rank query_pjjc_rank
  else message.

(** How one pass through the body of the [for] ends. *)
Inductive for_flow : Type :=
| ForNext                (* [continue], or the end of the body *)
| ForBreak               (* [break] *)
| ForRaise (e : exn).    (* an exception leaves the loop *)

(** The states of the outer loop of [watch]. *)
Inductive phase : Type :=
| LoggingIn         (* at the top of the outer [while] *)
| Polling           (* at the test of the inner [while] *)
| Stopped           (* the outer [while] has ended: [watch] returns *)
| Raised (e : exn). (* [watch] raises *)

Section Clock.

(** [now k] is the text of [datetime.now()] at its [k]-th read. *)
Variable now : nat -> string.

(** [f"{datetime.now()}\n【PCR】{message}"] at clock reading [k]. *)
Definition stamp (k : nat) (message : string) : string :=
  now k ++ LF ++ marker ++ message.

(** [post_reply k] is what the webhook POST of the call of [send_message] that
    made reading [k] of the clock ends with: it returns ([None]; the status of
    the answer is not looked at) or raises. *)
Variable post_reply : nat -> option exn.

(** [WorkWx.send_message].  A delayed message is only put on the queue.  Any
    other one empties the queue and posts; when the POST raises, what was
    taken from the queue is not put back. *)
Definition send_message (message : string) (delay : bool) : M unit :=
  fun w =>
  let k := clock w in
  let message := stamp k message in
  let w := mkWorld (queue w) (trace w) (S k) in
  if delay then
    (Ok tt,
     mkWorld (queue w ++ [message])%list (trace w ++ [EvPut message])%list (clock w))
  else
    let '(q, messages) := drain (queue w) [] in
    let messages := (messages ++ [message])%list in
    let w := mkWorld q (trace w ++ [EvPost (join (LF ++ LF) messages)])%list (clock w) in
    match post_reply k with
    | None => (Ok tt, w)
    | Some e => (Raise e, w)
    end.

Section Solver.

(** [int_of_str] is [int] on texts.  [submit_reply v] answers the submission
    of attempt [v] ([verify_count] after its increment); [check_reply v q]
    answers status poll [q] ([query_count] after its increment) of attempt
    [v]; [wake v q] is how the sleep that follows that poll ends: it returns
    or it is interrupted. *)
Variable int_of_str : string -> option Z.
Variable submit_reply : nat -> http_reply.
Variable check_reply : nat -> nat -> http_reply.
Variable wake : nat -> nat -> option exn.

(** The body of [while query_count < 10], after [query_count += 1]. *)
Definition check_once (verify_uuid : json) (verify_count query_count : nat)
  : M check_flow :=
  lift (emit (EvCheck verify_uuid)) ;;;
  match check_reply verify_count query_count with
  | HttpRaises e => raise e
  | HttpJson query_data =>
      query_queue <- try (py_get query_data "queue_num") ;;
      if truthy query_queue then
        query_queue <- try (py_int int_of_str query_queue) ;;
        let query_waittime := Z.min query_queue 3 * 10 in
        send_message "登录验证：自动过码队列中" true ;;;
        send_message
          ("当前位置：" ++ str_of_Z query_queue ++ "，等待"
           ++ str_of_Z query_waittime ++ "秒") false ;;;
        asyncio_sleep query_waittime (wake verify_count query_count) ;;;
        ret CheckAgain
      else
        query_info <- try (py_get query_data "info") ;;
        if truthy query_info then
          if existsb (json_eq_str query_info) ["fail"; "url invalid"] then
            send_message "登录验证：自动过码失败" false ;;;
            ret CheckBreak
          else if json_eq_str query_info "in running" then
            send_message "登录验证：自动过码运行中" true ;;;
            asyncio_sleep 5 (wake verify_count query_count) ;;;
            ret CheckAgain
          else
            validated <- try (py_in "validate" query_info) ;;
            if validated then
              send_message "登录验证：自动过码成功" true ;;;
              c <- try (py_getitem query_info "challenge") ;;
              g <- try (py_getitem query_info "gt_user_id") ;;
              v <- try (py_getitem query_info "validate") ;;
              ret (CheckReturn (c, g, v))
            else ret CheckAgain
        else ret CheckAgain
  end.

(** [while query_count < 10: query_count += 1; ...].  [todo] is
    [10 - query_count], the number of passes the condition still allows.
    [None] is the loop left by its condition or by [break]. *)
Fixpoint check_loop (todo : nat) (verify_uuid : json)
  (verify_count query_count : nat) : M (option token) :=
  match todo with
  | O => ret None
  | S todo' =>
      let query_count := S query_count in
      flow <- check_once verify_uuid verify_count query_count ;;
      match flow with
      | CheckAgain => check_loop todo' verify_uuid verify_count query_count
      | CheckBreak => ret None
      | CheckReturn t => ret (Some t)
      end
  end.

(** [while verify_count < 3: ... else: ...].  [todo] is [3 - verify_count].
    The [else] branch runs when the condition fails; the function then ends
    without a [return], that is with [None]. *)
Fixpoint verify_loop (todo : nat) (verify_url : string) (verify_count : nat)
  : M (option token) :=
  match todo with
  | O =>
      send_message "登录验证：自动过码超时" false ;;;
      ret None
  | S todo' =>
      let verify_count := S verify_count in
      send_message
        ("PCR登录验证：自动过码第" ++ str_of_Z (Z.of_nat verify_count)
         ++ "次尝试") true ;;;
      lift (emit (EvSubmit verify_url)) ;;;
      match submit_reply verify_count with
      | HttpRaises e => raise e
      | HttpJson verify_data =>
          verify_uuid <- try (py_getitem verify_data "uuid") ;;
          r <- check_loop 10 verify_uuid verify_count 0 ;;
          match r with
          | Some t => ret (Some t)
          | None => verify_loop todo' verify_url verify_count
          end
      end
  end.

(** [gt], [challenge] and [userid] are the opaque texts the SDK hands over. *)
Definition _verify_captcha (gt challenge userid : string) : M (option token) :=
  let verify_url :=
    "https://pcrd.tencentbot.top/geetest_renew?captcha_type=1"
    ++ "&challenge=" ++ challenge ++ "&gt=" ++ gt ++ "&userid=" ++ userid
    ++ "&gs=1" in
  verify_loop 3 verify_url 0.

End Solver.

(** [PcrWatcher._verify_error], the error callback handed to the SDK. *)
Definition _verify_error (message : string) : M unit :=
  send_message ("登录失败：" ++ message) false.

(** ** The watch loop ([PcrWatcher.watch]) *)

(** The handler [except Exception as e] of the body of the [for], [e] being
    [str(e)].  An exception of the notification is raised inside the handler:
    it leaves the [for] with the counters as they are. *)
Definition on_query_error (e : string) (st : watcher) (changed : bool)
  : watcher * bool * for_flow :=
  if contains "回到标题界面" e then
    (with_counts (user_query_error_count st) 3 st, changed, ForBreak)
  else
    let st :=
      with_counts (S (user_query_error_count st))
        (user_notify_error_count st) st in
    if (user_query_error_count st <? 3)%nat then (st, changed, ForNext)
    else
      let '(r, st) :=
        in_workwx (send_message ("用户信息查询失败：" ++ e) false) st in
      match r with
      | Ok _ =>
          (with_counts 0 (S (user_notify_error_count st)) st, changed, ForBreak)
      | Raise e' => (st, changed, ForRaise e')
      end.

(** The body of [for user_id, (user_jjc_rank, user_pjjc_rank) in
    self.pcr_cache.items()] for the key [user_id]: the pair is the one the
    cache holds when the iteration reaches the key.  [changed] is
    [user_rank_has_changed].  The delayed notification only puts on the
    queue. *)
Definition watch_user (reply : query_reply) (user_id : Z)
  (st : watcher) (changed : bool) : watcher * bool * for_flow :=
  match cache_get user_id (pcr_cache st) with
  | None => (st, changed, ForNext)     (* not a key: the view never yields it *)
  | Some (user_jjc_rank, user_pjjc_rank) =>
      let st := with_workwx (emit (EvQuery user_id)) st in
      match reply with
      | QueryProfile query_user_name query_jjc_rank query_pjjc_rank =>
          let st := with_counts 0 0 st in
          let change_jjc := negb (user_jjc_rank =? query_jjc_rank) in
          let change_pjjc := negb (user_pjjc_rank =? query_pjjc_rank) in
          if (negb change_jjc && negb change_pjjc)%bool then (st, changed, ForNext)
          else
            let message :=
              change_message query_user_name user_jjc_rank user_pjjc_rank
                query_jjc_rank query_pjjc_rank in
            let st := store_ranks user_id (query_jjc_rank, query_pjjc_rank) st in
            let st := snd (in_workwx (send_message message true) st) in
            (st, true, ForNext)
      | QueryMalformed e => on_query_error e (with_counts 0 0 st) changed
      | QueryRaises e => on_query_error e st changed
      | QueryCancelled => (st, changed, ForRaise CancelledError)
      end
  end.

(** The [for] loop over the keys still to visit; [replies user_id] is what the
    query for that user meets in this cycle. *)
Fixpoint for_users (replies : Z -> query_reply) (keys : list Z)
  (st : watcher) (changed : bool) : watcher * bool * for_flow :=
  match keys with
  | [] => (st, changed, ForNext)
  | user_id :: keys' =>
      match watch_user (replies user_id) user_id st changed with
      | (st', changed', ForNext) => for_users replies keys' st' changed'
      | (st', changed', flow) => (st', changed', flow)
      end
  end.

(** What follows the [for] in the body of the inner [while]: the summary and
    the sleep.  [Some e] is the summary raising [e]. *)
Definition end_cycle (st : watcher) (changed : bool) : watcher * option exn :=
  let '(r, st) :=
    if changed
    then in_workwx (send_message "监听用户存在排名变动" false) st
    else (Ok tt, st) in
  match r with
  | Ok _ => (with_workwx (sleep 3) st, None)
  | Raise e => (st, Some e)
  end.

(** One pass through the body of the inner [while]; [Some e] is the pass
    left by the exception [e]. *)
Definition watch_cycle (replies : Z -> query_reply) (st : watcher)
  : watcher * option exn :=
  match for_users replies (map fst (pcr_cache st)) st false with
  | (st', _, ForRaise e) => (st', Some e)
  | (st', changed, _) => end_cycle st' changed
  end.

(** The condition of the inner [while]. *)
Definition polling_cond (st : watcher) : bool :=
  (negb (watch_event st) && (user_notify_error_count st <? 3)%nat)%bool.

(** The inner [while]: [replies n] answers the queries of its [n]-th pass and
    [signals n] tells whether SIGTERM arrived in the course of that pass (or
    an interruption in the sleep that ends it, which leads to the same end).
    The loop ends by its condition ([None] for the exception) or by the exception
    that left a pass.  No result at all when [fuel] passes were not enough. *)
Fixpoint polling (fuel : nat) (replies : nat -> Z -> query_reply)
  (signals : nat -> bool) (n : nat) (st : watcher)
  : option (watcher * option exn) :=
  if polling_cond st then
    match fuel with
    | O => None
    | S fuel' =>
        let '(st', r) := watch_cycle (replies n) st in
        let st' := signalled (signals n) st' in
        match r with
        | None => polling fuel' replies signals (S n) st'
        | Some e => Some (st', Some e)
        end
    end
  else Some (st, None).

Section Login.

(** [should_login k] is [self.pcr_client.shouldLogin] at the [k]-th test of
    the loop; [sdk_login k] is the [k]-th call of [self.pcr_client.login()]:
    some computation of the SDK, which may notify through its callbacks, and
    returns or raises. *)
Variable should_login : nat -> bool.
Variable sdk_login : nat -> M unit.

(** [PcrWatcher.login]: [while self.pcr_client.shouldLogin: ...].  [true]
    is the loop left by its condition, [false] is [fuel] passes not being
    enough.  ([HiddenPrints] only silences [print].) *)
Fixpoint login (fuel : nat) (k : nat) : M bool :=
  if should_login k then
    match fuel with
    | O => ret false
    | S fuel' =>
        send_message "登录中" true ;;;
        sdk_login k ;;;
        send_message "登录成功" false ;;;
        login fuel' (S k)
    end
  else ret true.

(** The outer loop of [watch], one step at a time.  A step through the login
    is a run of [login] from some test [k] of the session.
    - SIGTERM only sets the event ([signal.signal(SIGTERM, self.watch_stop)]),
      which is read at the tests of the two loops: it is taken at the top of
      the outer loop ([StepSignal]), or in the course of a step that leads to
      the test of the inner loop (its [stop]).
    - An interruption ([CancelledError], [KeyboardInterrupt]) is caught by the
      outermost [except], which calls [watch_stop].  Taken while a request is
      awaited, it is the answer [CancelledError] of that request.  Taken in
      one of the three sleeps of [watch], it leaves the same trace and the
      same state as SIGTERM arriving in that sleep, and is that step.
    - An [Exception] of the polling block is printed, and the loop goes on
      after the sleep of the [finally]; an [Exception] raised while the login
      error is notified is caught nowhere: [watch] raises it. *)
Inductive watch_step : phase * watcher -> phase * watcher -> Prop :=
| StepStop (st : watcher) :
    watch_event st = true ->
    watch_step (LoggingIn, st) (Stopped, st)
| StepSignal (st : watcher) :
    watch_event st = false ->
    watch_step (LoggingIn, st) (LoggingIn, watch_stop st)
| StepLoginDone (st : watcher) (fuel k : nat) (w' : world) (stop : bool) :
    watch_event st = false ->
    login fuel k (workwx st) = (Ok true, w') ->
    watch_step (LoggingIn, st)
      (Polling, signalled stop (with_counts 0 0 (with_workwx (fun _ => w') st)))
| StepLoginRaises (st : watcher) (fuel k : nat) (w' w'' : world) (e : exn)
    (text : string) :
    watch_event st = false ->
    login fuel k (workwx st) = (Raise e, w') ->
    is_exception e = true ->
    exn_says e text ->
    send_message ("登录异常：" ++ text) false w' = (Ok tt, w'') ->
    watch_step (LoggingIn, st)
      (LoggingIn, with_workwx (fun _ => sleep 3 w'') st)
| StepLoginNoticeRaises (st : watcher) (fuel k : nat) (w' w'' : world)
    (e e' : exn) (text : string) :
    watch_event st = false ->
    login fuel k (workwx st) = (Raise e, w') ->
    is_exception e = true ->
    exn_says e text ->
    send_message ("登录异常：" ++ text) false w' = (Raise e', w'') ->
    is_exception e' = true ->
    watch_step (LoggingIn, st) (Raised e', with_workwx (fun _ => w'') st)
| StepLoginNoticeCancelled (st : watcher) (fuel k : nat) (w' w'' : world)
    (e e' : exn) (text : string) :
    watch_event st = false ->
    login fuel k (workwx st) = (Raise e, w') ->
    is_exception e = true ->
    exn_says e text ->
    send_message ("登录异常：" ++ text) false w' = (Raise e', w'') ->
    is_exception e' = false ->
    watch_step (LoggingIn, st)
      (LoggingIn, watch_stop (with_workwx (fun _ => w'') st))
| StepLoginCancelled (st : watcher) (fuel k : nat) (w' : world) (e : exn) :
    watch_event st = false ->
    login fuel k (workwx st) = (Raise e, w') ->
    is_exception e = false ->
    watch_step (LoggingIn, st)
      (LoggingIn, watch_stop (with_workwx (fun _ => w') st))
| StepCycle (st st' : watcher) (replies : Z -> query_reply) (stop : bool) :
    polling_cond st = true ->
    watch_cycle replies st = (st', None) ->
    watch_step (Polling, st) (Polling, signalled stop st')
| StepCycleRaises (st st' : watcher) (replies : Z -> query_reply) (e : exn) :
    polling_cond st = true ->
    watch_cycle replies st = (st', Some e) ->
    is_exception e = true ->
    watch_step (Polling, st) (LoggingIn, with_workwx (sleep 3) st')
| StepCycleCancelled (st st' : watcher) (replies : Z -> query_reply) (e : exn) :
    polling_cond st = true ->
    watch_cycle replies st = (st', Some e) ->
    is_exception e = false ->
    watch_step (Polling, st) (LoggingIn, watch_stop (with_workwx (sleep 3) st'))
| StepLeave (st : watcher) :
    polling_cond st = false ->
    watch_step (Polling, st) (LoggingIn, with_workwx (sleep 3) st).

End Login.

End Clock.

(** A message as [send_message] stores it: stamped at some reading of the
    clock. *)
Definition stamped (now : nat -> string) (text : string) : Prop :=
  exists k message, text = stamp now k message.

(** Several low-priority messages sent one after the other:
    [for m in messages: await send_message(m, delay=True)]. *)
Definition send_delayed (now : nat -> string) (post_reply : nat -> option exn)
  (messages : list string) (w : world) : world :=
  fold_left (fun w message => snd (send_message now post_reply message true w))
    messages w.

(** The texts stored for [messages] when the first is stamped at reading [k]. *)
Fixpoint stamps_from (now : nat -> string) (k : nat) (messages : list string)
  : list string :=
  match messages with
  | [] => []
  | message :: rest => stamp now k message :: stamps_from now (S k) rest
  end.

(** The largest of the seconds slept among some events is at most [bound]. *)
Definition sleeps_within (bound : Z) (tr : list event) : Prop :=
  Forall (fun s => s <= bound) (sleeps tr).

(** ** Inputs of the examples *)

(** A clock for the examples: every reading shows the same instant. *)
Definition fixed_now (k : nat) : string := "2024-05-01 12:00:00.000000".

(** A webhook that takes every POST. *)
Definition webhook_up (k : nat) : option exn := None.

(** A webhook that cannot be reached. *)
Definition webhook_down (k : nat) : option exn :=
  Some (TransportError "connection refused").

(** No SIGTERM. *)
Definition no_signal (n : nat) : bool := false.

(** No sleep of the solver is interrupted. *)
Definition no_interruption (v q : nat) : option exn := None.

Definition is_space (c : ascii) : bool :=
  let n := nat_of_ascii c in
  (Nat.eqb n 32 || (Nat.leb 9 n && Nat.leb n 13))%bool.

Fixpoint lstrip (s : string) : string :=
  match s with
  | EmptyString => EmptyString
  | String c rest => if is_space c then lstrip rest else s
  end.

Fixpoint rstrip (s : string) : string :=
  match s with
  | EmptyString => EmptyString
  | String c rest =>
      match rstrip rest with
      | EmptyString => if is_space c then EmptyString else String c EmptyString
      | rest' => String c rest'
      end
  end.

(** ASCII digits, with single underscores between them. *)
Fixpoint digits (acc : Z) (after_digit : bool) (s : string) : option Z :=
  match s with
  | EmptyString => if after_digit then Some acc else None
  | String c rest =>
      let n := nat_of_ascii c in
      if (Nat.leb 48 n && Nat.leb n 57)%bool
      then digits (10 * acc + Z.of_nat (n - 48)) true rest
      else if (Nat.eqb n 95 && after_digit)%bool then digits acc false rest
      else None
  end.

(** A conversion of texts for the examples: the decimal literals in ASCII
    (blanks around, a sign, digits). *)
Definition decimal_int (s : string) : option Z :=
  match rstrip (lstrip s) with
  | String "-" rest => option_map Z.opp (digits 0 false rest)
  | String "+" rest => digits 0 false rest
  | body => digits 0 false body
  end.

(** The solver service of the examples: every submission is given the uuid
    [X]. *)
Definition submit_X (v : nat) : http_reply := HttpJson (JObj [("uuid", JStr "X")]).

(** Every status poll shows position 2 in the queue. *)
Definition always_second (v q : nat) : http_reply :=
  HttpJson (JObj [("queue_num", JInt 2)]).

(** The service of the scenario: two polls in the queue at position 2, one
    poll at work, then the token. *)
Definition scenario_checks (v q : nat) : http_reply :=
  match q with
  | 1%nat | 2%nat => HttpJson (JObj [("queue_num", JInt 2)])
  | 3%nat => HttpJson (JObj [("info", JStr "in running")])
  | _ =>
      HttpJson (JObj [("info",
                       JObj [("validate", JStr "v"); ("challenge", JStr "c");
                             ("gt_user_id", JStr "g")])])
  end.

(** Every status poll reports a failure. *)
Definition always_fail (v q : nat) : http_reply :=
  HttpJson (JObj [("info", JStr "fail")]).

(** Every status poll carries a token without its [challenge]. *)
Definition always_incomplete (v q : nat) : http_reply :=
  HttpJson (JObj [("info", JObj [("validate", JStr "v"); ("gt_user_id", JStr "g")])]).

(** A watcher of the examples: users 1 and 2, stored at (100, 50) and
    (7, 7), fresh counters, nothing pending. *)
Definition two_users : watcher :=
  mkWatcher [(1, (100, 50)); (2, (7, 7))] 0 0 false (mkWorld [] [] 0).

(** Every query raises the same plain error. *)
Definition all_timeout (user_id : Z) : query_reply := QueryRaises "timeout".

(** Only the query for user 2 fails; user 1 is where the cache has it. *)
Definition only_second_fails (user_id : Z) : query_reply :=
  if user_id =? 2 then QueryRaises "timeout" else QueryProfile "U" 100 50.

(** The queries that find both users of [two_users] where the cache has
    them. *)
Definition nobody_moved (user_id : Z) : query_reply :=
  if user_id =? 1 then QueryProfile "U" 100 50 else QueryProfile "V" 7 7.

(** The queries that find user 2 of [two_users] at new ranks. *)
Definition second_moved (user_id : Z) : query_reply :=
  if user_id =? 1 then QueryProfile "U" 100 50 else QueryProfile "V" 5 9.

(** A session that asks for a login once. *)
Definition login_once (k : nat) : bool := Nat.eqb k 0.

(** An SDK login that returns without a notice. *)
Definition sdk_accepts (k : nat) : M unit := ret tt.

(** An SDK login that reports a wrong password through the error callback and
    raises. *)
Definition sdk_rejects (k : nat) : M unit :=
  fun w => (Raise (TransportError "密码错误"),
            snd (_verify_error fixed_now webhook_up "密码错误" w)).

(** * Properties *)

(** ** Traces and texts *)

Lemma posts_app (a b : list event) : posts (a ++ b)%list = (posts a ++ posts b)%list.
Proof.
  induction a as [|e a IH]; simpl; [reflexivity|].
  destruct e; simpl; rewrite IH; reflexivity.
Qed.

Lemma puts_app (a b : list event) : puts (a ++ b)%list = (puts a ++ puts b)%list.
Proof.
  induction a as [|e a IH]; simpl; [reflexivity|].
  destruct e; simpl; rewrite IH; reflexivity.
Qed.

Lemma sleeps_app (a b : list event) : sleeps (a ++ b)%list = (sleeps a ++ sleeps b)%list.
Proof.
  induction a as [|e a IH]; simpl; [reflexivity|].
  destruct e; simpl; rewrite IH; reflexivity.
Qed.

Lemma checks_app (a b : list event) : checks (a ++ b)%list = (checks a + checks b)%nat.
Proof.
  induction a as [|e a IH]; simpl; [reflexivity|].
  destruct e; simpl; rewrite IH; reflexivity.
Qed.

Lemma submits_app (a b : list event) : submits (a ++ b)%list = (submits a + submits b)%nat.
Proof.
  induction a as [|e a IH]; simpl; [reflexivity|].
  destruct e; simpl; rewrite IH; reflexivity.
Qed.

Lemma total_sleep_app (a b : list event) :
  total_sleep (a ++ b)%list = total_sleep a + total_sleep b.
Proof.
  unfold total_sleep. rewrite sleeps_app.
  induction (sleeps a) as [|x l IH]; simpl; [reflexivity | rewrite IH; lia].
Qed.

Lemma append_assoc (a b c : string) : (a ++ b) ++ c = a ++ (b ++ c).
Proof. induction a as [|x a IH]; simpl; [reflexivity | now rewrite IH]. Qed.

Lemma lines_from_one_line (a cur rest : string) :
  one_line a = true ->
  lines_from cur (a ++ LF ++ rest) = (cur ++ a) :: lines rest.
Proof.
  revert cur. induction a as [|c a IH]; intros cur Ha.
  - simpl. replace (cur ++ "") with cur; [reflexivity|].
    clear. induction cur as [|x cur IH]; simpl; [reflexivity | now rewrite <- IH].
  - simpl in Ha. apply andb_true_iff in Ha as [Hc Ha].
    simpl. apply negb_true_iff in Hc. rewrite Hc.
    rewrite (IH _ Ha). rewrite append_assoc. reflexivity.
Qed.

(** ** The notification channel *)

Lemma drain_all (q messages : list string) :
  drain q messages = ([], (messages ++ q)%list).
Proof.
  revert messages. induction q as [|m q IH]; intros messages; simpl.
  - now rewrite app_nil_r.
  - rewrite IH, <- app_assoc. reflexivity.
Qed.

Lemma send_message_delay now post_reply message w :
  send_message now post_reply message true w =
  (Ok tt,
   mkWorld (queue w ++ [stamp now (clock w) message])%list
           (trace w ++ [EvPut (stamp now (clock w) message)])%list
           (S (clock w))).
Proof. reflexivity. Qed.

Lemma send_message_flush now post_reply message w :
  send_message now post_reply message false w =
  (match post_reply (clock w) with None => Ok tt | Some e => Raise e end,
   mkWorld []
           (trace w ++ [EvPost (join (LF ++ LF)
                                  (queue w ++ [stamp now (clock w) message])%list)])%list
           (S (clock w))).
Proof.
  unfold send_message. simpl. rewrite drain_all.
  destruct (post_reply (clock w)); reflexivity.
Qed.

(** The channel after a send does not depend on what the webhook answers. *)
Lemma send_message_world now post_reply message delay w :
  snd (send_message now post_reply message delay w) =
  if delay
  then mkWorld (queue w ++ [stamp now (clock w) message])%list
               (trace w ++ [EvPut (stamp now (clock w) message)])%list
               (S (clock w))
  else mkWorld []
               (trace w ++ [EvPost (join (LF ++ LF)
                                      (queue w ++ [stamp now (clock w) message])%list)])%list
               (S (clock w)).
Proof.
  destruct delay; [rewrite send_message_delay | rewrite send_message_flush]; reflexivity.
Qed.

(** A send raises only what the POST raises, and a delayed one returns. *)
Lemma send_message_result now post_reply message delay w :
  fst (send_message now post_reply message delay w) =
  if delay then Ok tt
  else match post_reply (clock w) with None => Ok tt | Some e => Raise e end.
Proof.
  destruct delay; [rewrite send_message_delay | rewrite send_message_flush]; reflexivity.
Qed.

(** What a step adds to the trace, read through the observers; the rewriting
    base [world_trace] peels a run one step at a time. *)

Lemma trace_emit e w : trace (emit e w) = (trace w ++ [e])%list.
Proof. reflexivity. Qed.

Lemma trace_sleep s w : trace (sleep s w) = (trace w ++ [EvSleep s])%list.
Proof. reflexivity. Qed.

Lemma send_message_checks now post_reply message delay w :
  checks (trace (snd (send_message now post_reply message delay w))) = checks (trace w).
Proof.
  rewrite send_message_world. destruct delay; cbn [trace]; rewrite checks_app; simpl; lia.
Qed.

Lemma send_message_submits now post_reply message delay w :
  submits (trace (snd (send_message now post_reply message delay w))) = submits (trace w).
Proof.
  rewrite send_message_world. destruct delay; cbn [trace]; rewrite submits_app; simpl; lia.
Qed.

Lemma send_message_sleeps now post_reply message delay w :
  sleeps (trace (snd (send_message now post_reply message delay w))) = sleeps (trace w).
Proof.
  rewrite send_message_world.
  destruct delay; cbn [trace]; rewrite sleeps_app; simpl; apply app_nil_r.
Qed.

#[local] Hint Rewrite send_message_checks send_message_submits send_message_sleeps
  trace_sleep trace_emit checks_app submits_app sleeps_app : world_trace.

(** C6.  With [m1] then [m2] buffered as low-priority messages, the
    high-priority [m3] makes exactly one POST: its payload is what was pending
    before, then [m1], [m2], [m3] in that order, each behind its reading of the
    clock and the marker, joined by blank lines; the queue is empty afterwards,
    and the send returns when the POST does.  Starting from an empty queue the
    payload is the text of [m1], a blank line, the text of [m2], a blank line,
    the text of [m3]. *)
Theorem coalescer_flushes_in_order (now : nat -> string)
  (post_reply : nat -> option exn) (m1 m2 m3 : string)
  (pending : list string) (tr : list event) (k : nat) :
  let w := mkWorld pending tr k in
  let '(r1, w1) := send_message now post_reply m1 true w in
  let '(r2, w2) := send_message now post_reply m2 true w1 in
  let '(r3, w3) := send_message now post_reply m3 false w2 in
  let t1 := now k ++ LF ++ marker ++ m1 in
  let t2 := now (S k) ++ LF ++ marker ++ m2 in
  let t3 := now (S (S k)) ++ LF ++ marker ++ m3 in
  r1 = Ok tt /\ r2 = Ok tt /\
  queue w2 = (pending ++ [t1; t2])%list /\
  posts (trace w2) = posts tr /\
  queue w3 = [] /\
  trace w3 = (trace w2 ++ [EvPost (join (LF ++ LF) (pending ++ [t1; t2; t3])%list)])%list /\
  posts (trace w3) = (posts tr ++ [join (LF ++ LF) (pending ++ [t1; t2; t3])%list])%list /\
  join (LF ++ LF) [t1; t2; t3] = t1 ++ (LF ++ LF) ++ t2 ++ (LF ++ LF) ++ t3 /\
  r3 = match post_reply (S (S k)) with None => Ok tt | Some e => Raise e end.
Proof.
  intros w. subst w.
  rewrite !send_message_delay. cbn [queue trace clock].
  rewrite send_message_flush. cbn [queue trace clock]. unfold stamp.
  rewrite !posts_app. simpl. rewrite !app_nil_r.
  rewrite <- !app_assoc. simpl.
  repeat split; reflexivity.
Qed.

(** C10, as stated, fails: the text stored for the message [登录成功] has two
    lines, the instant and [【PCR】登录成功]; the marker shares its line with
    the message, so no line of the text is the marker alone. *)
Lemma marker_line_counterexample :
  lines (stamp fixed_now 0 "登录成功")
    = ["2024-05-01 12:00:00.000000"; marker ++ "登录成功"]
  /\ ~ In marker (lines (stamp fixed_now 0 "登录成功")).
Proof.
  split; [reflexivity|].
  cbv [stamp fixed_now lines]. simpl.
  intros [H|[H|[]]]; discriminate H.
Qed.

(** C10, amended.  [send_message] replaces every message by the reading of
    the clock, a newline, the marker and the message itself, the marker
    directly in front of the message: when the reading has no newline, the
    first line of the text is the reading and the rest are the lines of marker
    and message together.  A delayed message is stored in that form; any other
    one is posted with what the queue holds, joined by blank lines.  So a
    queue of stamped texts stays one, and a delivery is the blank-line join of
    stamped texts, never of raw messages. *)
Theorem every_message_is_stamped (now : nat -> string)
  (post_reply : nat -> option exn) (message : string)
  (delay : bool) (w : world) :
  Forall (stamped now) (queue w) ->
  let w' := snd (send_message now post_reply message delay w) in
  let text := now (clock w) ++ LF ++ marker ++ message in
  (one_line (now (clock w)) = true ->
   lines text = now (clock w) :: lines (marker ++ message)) /\
  Forall (stamped now) (queue w') /\
  (if delay
   then queue w' = (queue w ++ [text])%list /\
        trace w' = (trace w ++ [EvPut text])%list
   else queue w' = [] /\
        trace w' = (trace w ++ [EvPost (join (LF ++ LF) (queue w ++ [text])%list)])%list /\
        Forall (stamped now) (queue w ++ [text])%list).
Proof.
  intros Hq w' text.
  assert (Hs : Forall (stamped now) (queue w ++ [text])%list).
  { apply Forall_app. split; [exact Hq|].
    constructor; [|constructor]. exists (clock w), message. reflexivity. }
  split.
  - intros H1. unfold lines, text. now rewrite lines_from_one_line.
  - subst w'. rewrite send_message_world. destruct delay.
    + simpl. repeat split; assumption || reflexivity.
    + simpl. repeat split; try reflexivity; auto.
Qed.

Lemma every_message_is_stamped_witness :
  Forall (stamped fixed_now) (queue (mkWorld [stamp fixed_now 0 "登录中"] [] 1)) /\
  queue (snd (send_message fixed_now webhook_up "登录成功" false
                (mkWorld [stamp fixed_now 0 "登录中"] [] 1))) = [].
Proof.
  assert (H : Forall (stamped fixed_now)
                (queue (mkWorld [stamp fixed_now 0 "登录中"] [] 1))).
  { constructor; [|constructor]. exists 0%nat, "登录中". reflexivity. }
  split; [exact H|].
  exact (proj1 (proj2 (proj2
    (every_message_is_stamped fixed_now webhook_up "登录成功" false
       (mkWorld [stamp fixed_now 0 "登录中"] [] 1) H)))).
Defined.

(** ** The verification solver, step by step *)

Lemma bind_send {B : Type} now post_reply message delay (k : M B) w :
  (send_message now post_reply message delay ;;; k) w =
  match (if delay then None else post_reply (clock w)) with
  | None => k (snd (send_message now post_reply message delay w))
  | Some e => (Raise e, snd (send_message now post_reply message delay w))
  end.
Proof.
  unfold bind. destruct delay.
  - rewrite send_message_delay. reflexivity.
  - rewrite send_message_flush. destruct (post_reply (clock w)); reflexivity.
Qed.

Lemma bind_sleep {B : Type} seconds outcome (k : M B) w :
  (asyncio_sleep seconds outcome ;;; k) w =
  match outcome with
  | None => k (sleep seconds w)
  | Some e => (Raise e, sleep seconds w)
  end.
Proof. unfold bind, asyncio_sleep. destruct outcome; reflexivity. Qed.

Lemma clock_sent now post_reply message delay w :
  clock (snd (send_message now post_reply message delay w)) = S (clock w).
Proof. rewrite send_message_world. destruct delay; reflexivity. Qed.

Section SolverFacts.

Variable now : nat -> string.
Variable post_reply : nat -> option exn.
Variable int_of_str : string -> option Z.
Variable submit_reply : nat -> http_reply.
Variable check_reply : nat -> nat -> http_reply.
Variable wake : nat -> nat -> option exn.

(** A status poll that shows a position in the queue. *)
Lemma check_once_queued uuid v q query_data x n w :
  check_reply v q = HttpJson query_data ->
  py_get query_data "queue_num" = Ok x ->
  truthy x = true ->
  py_int int_of_str x = Ok n ->
  check_once now post_reply int_of_str check_reply wake uuid v q w =
  let w2 :=
    snd (send_message now post_reply
           ("当前位置：" ++ str_of_Z n ++ "，等待" ++ str_of_Z (Z.min n 3 * 10) ++ "秒")
           false
           (snd (send_message now post_reply "登录验证：自动过码队列中" true
                   (emit (EvCheck uuid) w)))) in
  match post_reply (S (clock w)) with
  | None =>
      (match wake v q with None => Ok CheckAgain | Some e => Raise e end,
       sleep (Z.min n 3 * 10) w2)
  | Some e => (Raise e, w2)
  end.
Proof.
  intros Hr Hg Ht Hi. unfold check_once.
  unfold bind at 1, lift at 1. rewrite Hr.
  unfold bind at 1, try at 1. rewrite Hg, Ht.
  unfold bind at 1, try at 1. rewrite Hi.
  rewrite bind_send. cbv iota. rewrite bind_send. cbv iota beta.
  rewrite clock_sent. cbn [emit clock].
  destruct (post_reply (S (clock w))); [reflexivity|].
  rewrite bind_sleep. destruct (wake v q); reflexivity.
Qed.

(** A status poll that shows the solver at work. *)
Lemma check_once_running uuid v q query_data x w :
  check_reply v q = HttpJson query_data ->
  py_get query_data "queue_num" = Ok x ->
  truthy x = false ->
  py_get query_data "info" = Ok (JStr "in running") ->
  check_once now post_reply int_of_str check_reply wake uuid v q w =
  (match wake v q with None => Ok CheckAgain | Some e => Raise e end,
   sleep 5 (snd (send_message now post_reply "登录验证：自动过码运行中" true
                   (emit (EvCheck uuid) w)))).
Proof.
  intros Hr Hg Ht Hi. unfold check_once.
  unfold bind at 1, lift at 1. rewrite Hr.
  unfold bind at 1, try at 1. rewrite Hg, Ht.
  unfold bind at 1, try at 1. rewrite Hi.
  cbn [truthy json_eq_str existsb String.eqb Ascii.eqb Bool.eqb orb negb].
  rewrite bind_send. cbv iota. rewrite bind_sleep.
  destruct (wake v q); reflexivity.
Qed.


(** A status poll that carries the validated token. *)
Lemma check_once_validated uuid v q query_data x info c g t w :
  check_reply v q = HttpJson query_data ->
  py_get query_data "queue_num" = Ok x ->
  truthy x = false ->
  py_get query_data "info" = Ok info ->
  truthy info = true ->
  existsb (json_eq_str info) ["fail"; "url invalid"] = false ->
  json_eq_str info "in running" = false ->
  py_in "validate" info = Ok true ->
  py_getitem info "challenge" = Ok c ->
  py_getitem info "gt_user_id" = Ok g ->
  py_getitem info "validate" = Ok t ->
  check_once now post_reply int_of_str check_reply wake uuid v q w =
  (Ok (CheckReturn (c, g, t)),
   snd (send_message now post_reply "登录验证：自动过码成功" true (emit (EvCheck uuid) w))).
Proof.
  intros Hr Hg Ht Hi Hti Hf Hrun Hin Hc Hgt Hv.
  unfold check_once, bind, lift, try, ret.
  rewrite Hr, Hg, Ht, Hi, Hti, Hf, Hrun, Hin. rewrite send_message_delay.
  rewrite Hc, Hgt, Hv. reflexivity.
Qed.

(** One pass of the inner loop, by the way the poll ends. *)
Lemma check_loop_step todo uuid v q w :
  check_loop now post_reply int_of_str check_reply wake (S todo) uuid v q w =
  match check_once now post_reply int_of_str check_reply wake uuid v (S q) w with
  | (Ok CheckAgain, w') =>
      check_loop now post_reply int_of_str check_reply wake todo uuid v (S q) w'
  | (Ok CheckBreak, w') => (Ok None, w')
  | (Ok (CheckReturn t), w') => (Ok (Some t), w')
  | (Raise e, w') => (Raise e, w')
  end.
Proof.
  simpl. unfold bind at 1.
  destruct (check_once now post_reply int_of_str check_reply wake uuid v (S q) w)
    as [[[| |t]|e] w']; reflexivity.
Qed.

(** The end of the outer loop: the timeout notice. *)
Lemma verify_loop_end url v w :
  verify_loop now post_reply int_of_str submit_reply check_reply wake 0 url v w =
  (match post_reply (clock w) with None => Ok None | Some e => Raise e end,
   snd (send_message now post_reply "登录验证：自动过码超时" false w)).
Proof.
  cbn [verify_loop]. rewrite bind_send.
  destruct (post_reply (clock w)); reflexivity.
Qed.

(** One pass of the outer loop, whatever the submission is answered. *)
Lemma verify_loop_unfold todo url v w :
  verify_loop now post_reply int_of_str submit_reply check_reply wake (S todo) url v w =
  let w1 :=
    emit (EvSubmit url)
      (snd (send_message now post_reply
              ("PCR登录验证：自动过码第" ++ str_of_Z (Z.of_nat (S v)) ++ "次尝试")
              true w)) in
  match submit_reply (S v) with
  | HttpRaises e => (Raise e, w1)
  | HttpJson verify_data =>
      match py_getitem verify_data "uuid" with
      | Raise e => (Raise e, w1)
      | Ok uuid =>
          match check_loop now post_reply int_of_str check_reply wake 10 uuid (S v) 0 w1 with
          | (Ok (Some t), w') => (Ok (Some t), w')
          | (Ok None, w') =>
              verify_loop now post_reply int_of_str submit_reply check_reply wake
                todo url (S v) w'
          | (Raise e, w') => (Raise e, w')
          end
      end
  end.
Proof.
  cbn [verify_loop]. rewrite bind_send. cbv iota.
  unfold bind, lift, try, raise, ret. cbv zeta.
  destruct (submit_reply (S v)) as [e|verify_data]; [reflexivity|].
  destruct (py_getitem verify_data "uuid") as [uuid|e]; [|reflexivity].
  destruct (check_loop now post_reply int_of_str check_reply wake 10 uuid (S v) 0 _)
    as [[[t|]|e] w']; reflexivity.
Qed.

(** One pass of the outer loop whose submission is answered with a uuid. *)
Lemma verify_loop_step todo url v w verify_data uuid :
  submit_reply (S v) = HttpJson verify_data ->
  py_getitem verify_data "uuid" = Ok uuid ->
  verify_loop now post_reply int_of_str submit_reply check_reply wake (S todo) url v w =
  match check_loop now post_reply int_of_str check_reply wake 10 uuid (S v) 0
          (emit (EvSubmit url)
             (snd (send_message now post_reply
                     ("PCR登录验证：自动过码第" ++ str_of_Z (Z.of_nat (S v)) ++ "次尝试")
                     true w))) with
  | (Ok (Some t), w') => (Ok (Some t), w')
  | (Ok None, w') =>
      verify_loop now post_reply int_of_str submit_reply check_reply wake todo url (S v) w'
  | (Raise e, w') => (Raise e, w')
  end.
Proof.
  intros Hs Hu. rewrite verify_loop_unfold. cbv zeta. rewrite Hs, Hu. reflexivity.
Qed.

End SolverFacts.

(** C7, as stated, fails on the priority of the notification.  At position 2
    the text [当前位置：2，等待20秒] is not left pending as a low-priority
    message: the poll makes a delivery that carries it, and nothing stays in
    the queue. *)
Lemma queue_position_counterexample :
  let w' := snd (check_once fixed_now webhook_up decimal_int always_second no_interruption
                   (JStr "X") 1 1 (mkWorld [] [] 0)) in
  posts (trace w')
    = [stamp fixed_now 0 "登录验证：自动过码队列中" ++ LF ++ LF
       ++ stamp fixed_now 1 "当前位置：2，等待20秒"]
  /\ ~ (posts (trace w') = [] /\
        In (stamp fixed_now 1 "当前位置：2，等待20秒") (queue w')).
Proof.
  split; [reflexivity|].
  intros [H _]. discriminate H.
Qed.

(** C7, amended.  For a status poll whose [queue_num] is present (truthy):
    when [int] converts it to [n], whatever the form it came in, the solver
    buffers the low-priority text [登录验证：自动过码队列中], then sends the
    position and the wait as a high-priority message, which posts them at once
    together with what was pending and empties the queue; when that POST
    returns it sleeps [min(n,3)*10] seconds, at most 30, and polls again when
    the sleep returns; when the POST raises, the poll raises the same error
    without the sleep, and an interruption of the sleep is raised as well.
    When [int] does not convert the value, the poll raises that error with
    nothing sent.  The waits for the positions 1, 2, 3, 5, 100 are 10, 20, 30,
    30, 30 seconds. *)
Theorem queue_wait_and_notice (now : nat -> string) (post_reply : nat -> option exn)
  (int_of_str : string -> option Z) (check_reply : nat -> nat -> http_reply)
  (wake : nat -> nat -> option exn)
  (uuid : json) (v q : nat) (query_data x : json) (w : world) :
  check_reply v q = HttpJson query_data ->
  py_get query_data "queue_num" = Ok x ->
  truthy x = true ->
  let '(r, w') := check_once now post_reply int_of_str check_reply wake uuid v q w in
  match py_int int_of_str x with
  | Raise e => r = Raise e /\ w' = emit (EvCheck uuid) w
  | Ok n =>
      let wait := Z.min n 3 * 10 in
      let notice := now (clock w) ++ LF ++ marker ++ "登录验证：自动过码队列中" in
      let position :=
        now (S (clock w)) ++ LF ++ marker
        ++ "当前位置：" ++ str_of_Z n ++ "，等待" ++ str_of_Z wait ++ "秒" in
      let sent :=
        (trace w ++ [EvCheck uuid; EvPut notice;
                     EvPost (join (LF ++ LF) (queue w ++ [notice; position])%list)])%list in
      wait <= 30 /\
      queue w' = [] /\
      match post_reply (S (clock w)) with
      | None =>
          trace w' = (sent ++ [EvSleep wait])%list /\
          r = match wake v q with None => Ok CheckAgain | Some e => Raise e end
      | Some e => r = Raise e /\ trace w' = sent
      end
  end /\
  map (fun p =>
         sleeps (trace (snd (check_once now (fun _ => None) int_of_str
                               (fun _ _ => HttpJson (JObj [("queue_num", JInt p)]))
                               wake uuid v q (mkWorld [] [] 0)))))
      [1; 2; 3; 5; 100]
    = [[10]; [20]; [30]; [30]; [30]].
Proof.
  intros Hr Hg Ht.
  assert (Htable :
    map (fun p =>
           sleeps (trace (snd (check_once now (fun _ => None) int_of_str
                                 (fun _ _ => HttpJson (JObj [("queue_num", JInt p)]))
                                 wake uuid v q (mkWorld [] [] 0)))))
        [1; 2; 3; 5; 100]
    = [[10]; [20]; [30]; [30]; [30]]).
  { cbn [map].
    rewrite !(fun p H => check_once_queued now (fun _ => None) int_of_str
                 (fun _ _ => HttpJson (JObj [("queue_num", JInt p)])) wake uuid v q
                 (JObj [("queue_num", JInt p)]) (JInt p) p (mkWorld [] [] 0)
                 eq_refl eq_refl H eq_refl) by reflexivity.
    cbv zeta. cbn [snd]. autorewrite with world_trace. reflexivity. }
  destruct (py_int int_of_str x) as [n|e] eqn:Hi.
  - rewrite (check_once_queued now post_reply int_of_str check_reply wake uuid v q
               query_data x n w Hr Hg Ht Hi).
    cbv zeta. rewrite !send_message_world. unfold sleep, emit, stamp.
    cbn [queue trace clock].
    destruct (post_reply (S (clock w))); cbn [queue trace];
      rewrite <- !app_assoc; cbn [app];
      (split; [|exact Htable]); (split; [lia|]); repeat split.
  - unfold check_once, bind, lift, try. rewrite Hr, Hg, Ht, Hi.
    split; [|exact Htable]. split; reflexivity.
Qed.

Lemma queue_wait_and_notice_witness :
  always_second 1 1 = HttpJson (JObj [("queue_num", JInt 2)]) /\
  py_get (JObj [("queue_num", JInt 2)]) "queue_num" = Ok (JInt 2) /\
  truthy (JInt 2) = true /\
  sleeps (trace (snd (check_once fixed_now webhook_up decimal_int always_second no_interruption
                        (JStr "X") 1 1 (mkWorld [] [] 0)))) = [20].
Proof.
  do 3 (split; [reflexivity|]).
  pose proof (queue_wait_and_notice fixed_now webhook_up decimal_int always_second no_interruption
                (JStr "X") 1 1 (JObj [("queue_num", JInt 2)]) (JInt 2)
                (mkWorld [] [] 0) eq_refl eq_refl eq_refl) as H.
  destruct (check_once fixed_now webhook_up decimal_int always_second no_interruption (JStr "X") 1 1
              (mkWorld [] [] 0)) as [r w'].
  cbn [py_int webhook_up] in H. cbv zeta in H.
  destruct H as ((_ & _ & Htr & _) & _). cbn [snd]. rewrite Htr. reflexivity.
Defined.

(** C8, as stated, fails on the waiting time.  In the scenario the solver
    returns after 4 polls, but position 2 costs [min(2,3)*10 = 20] seconds per
    poll: it has slept 20, 20 and 5 seconds, 45 in total and not
    [2*10 + 5]. *)
Lemma scenario_wait_counterexample :
  let '(r, w') :=
    _verify_captcha fixed_now webhook_up decimal_int submit_X scenario_checks no_interruption
      "gt" "challenge" "userid" (mkWorld [] [] 0) in
  r = Ok (Some (JStr "c", JStr "g", JStr "v")) /\
  checks (trace w') = 4%nat /\
  sleeps (trace w') = [20; 20; 5] /\
  total_sleep (trace w') <> 2 * 10 + 5.
Proof.
  vm_compute. repeat split; discriminate.
Qed.

(** C8, amended.  When the submission of the first attempt returns a uuid,
    its first two status polls return [queue_num = 2], the third returns
    [info = "in running"] and the fourth returns [info] with [validate = v],
    [challenge = c] and [gt_user_id = g], and the run gets that far (the
    webhook takes the two position notices and none of the three sleeps is
    interrupted), the solver returns the token [(c, g, v)] right after the
    fourth poll, with one submission made, and has slept 20, 20 and 5
    seconds: [2*20 + 5 = 45] seconds in total.  In every other case the
    solver raises, with no more than the sleeps of that list begun. *)
Theorem solver_scenario (now : nat -> string) (post_reply : nat -> option exn)
  (int_of_str : string -> option Z) (submit_reply : nat -> http_reply)
  (check_reply : nat -> nat -> http_reply) (wake : nat -> nat -> option exn)
  (gt challenge userid : string) (X : json) (w : world) :
  submit_reply 1%nat = HttpJson (JObj [("uuid", X)]) ->
  check_reply 1%nat 1%nat = HttpJson (JObj [("queue_num", JInt 2)]) ->
  check_reply 1%nat 2%nat = HttpJson (JObj [("queue_num", JInt 2)]) ->
  check_reply 1%nat 3%nat = HttpJson (JObj [("info", JStr "in running")]) ->
  check_reply 1%nat 4%nat =
    HttpJson (JObj [("info",
                     JObj [("validate", JStr "v"); ("challenge", JStr "c");
                           ("gt_user_id", JStr "g")])]) ->
  let '(r, w') :=
    _verify_captcha now post_reply int_of_str submit_reply check_reply wake
      gt challenge userid w in
  submits (trace w') = (submits (trace w) + 1)%nat /\
  (checks (trace w') <= checks (trace w) + 4)%nat /\
  match post_reply (2 + clock w)%nat, wake 1%nat 1%nat,
        post_reply (4 + clock w)%nat, wake 1%nat 2%nat, wake 1%nat 3%nat with
  | None, None, None, None, None =>
      r = Ok (Some (JStr "c", JStr "g", JStr "v")) /\
      checks (trace w') = (checks (trace w) + 4)%nat /\
      sleeps (trace w') = (sleeps (trace w) ++ [20; 20; 5])%list /\
      total_sleep (trace w') = total_sleep (trace w) + (2 * 20 + 5)
  | _, _, _, _, _ =>
      (exists e, r = Raise e) /\
      exists done, sleeps (trace w') = (sleeps (trace w) ++ done)%list /\
                   (done = [] \/ done = [20] \/ done = [20; 20] \/ done = [20; 20; 5])
  end.
Proof.
  intros Hs H1 H2 H3 H4. unfold _verify_captcha.
  rewrite (verify_loop_step now post_reply int_of_str submit_reply check_reply wake
             2 _ 0 w _ X Hs eq_refl).
  rewrite check_loop_step.
  rewrite (check_once_queued now post_reply int_of_str check_reply wake X 1 1 _
             (JInt 2) 2 _ H1 eq_refl eq_refl eq_refl).
  cbv zeta. cbn [emit clock]. rewrite clock_sent.
  change (S (S (clock w))) with (2 + clock w)%nat.
  destruct (post_reply (2 + clock w)%nat) as [e|].
  { autorewrite with world_trace. cbn [checks submits sleeps app].
    rewrite !app_nil_r. split; [lia|]. split; [lia|].
    split; [exists e; reflexivity|]. exists []. rewrite app_nil_r. auto. }
  destruct (wake 1%nat 1%nat) as [e|].
  { autorewrite with world_trace. cbn [checks submits sleeps app].
    rewrite !app_nil_r. split; [lia|]. split; [lia|].
    split; [exists e; reflexivity|]. exists [20]. auto. }
  rewrite check_loop_step.
  rewrite (check_once_queued now post_reply int_of_str check_reply wake X 1 2 _
             (JInt 2) 2 _ H2 eq_refl eq_refl eq_refl).
  cbv zeta. cbn [sleep emit clock]. rewrite !clock_sent. cbn [emit clock].
  rewrite clock_sent.
  change (S (S (S (S (clock w))))) with (4 + clock w)%nat.
  destruct (post_reply (4 + clock w)%nat) as [e|].
  { autorewrite with world_trace. cbn [checks submits sleeps app].
    rewrite !app_nil_r. split; [lia|]. split; [lia|].
    split; [exists e; reflexivity|]. exists [20]. auto. }
  destruct (wake 1%nat 2%nat) as [e|].
  { autorewrite with world_trace. cbn [checks submits sleeps app].
    rewrite !app_nil_r, <- !app_assoc. cbn [app]. split; [lia|]. split; [lia|].
    split; [exists e; reflexivity|]. exists [20; 20]. auto. }
  rewrite check_loop_step.
  rewrite (check_once_running now post_reply int_of_str check_reply wake X 1 3 _ JNull _
             H3 eq_refl eq_refl eq_refl).
  destruct (wake 1%nat 3%nat) as [e|].
  { autorewrite with world_trace. cbn [checks submits sleeps app].
    rewrite !app_nil_r, <- !app_assoc. cbn [app]. split; [lia|]. split; [lia|].
    split; [exists e; reflexivity|]. exists [20; 20; 5]. auto 6. }
  rewrite check_loop_step.
  rewrite (check_once_validated now post_reply int_of_str check_reply wake X 1 4 _ JNull _
             (JStr "c") (JStr "g") (JStr "v") _ H4 eq_refl eq_refl eq_refl eq_refl
             eq_refl eq_refl eq_refl eq_refl eq_refl eq_refl).
  unfold total_sleep.
  autorewrite with world_trace. cbn [checks submits sleeps app].
  rewrite !app_nil_r, <- !app_assoc. cbn [app]. rewrite fold_right_app. cbn [fold_right].
  repeat split; try lia.
  generalize (sleeps (trace w)). intros l.
  induction l as [|x l IH]; cbn [fold_right]; lia.
Qed.

Lemma solver_scenario_witness :
  submit_X 1%nat = HttpJson (JObj [("uuid", JStr "X")]) /\
  fst (_verify_captcha fixed_now webhook_up decimal_int submit_X scenario_checks no_interruption
         "gt" "challenge" "userid" (mkWorld [] [] 0))
    = Ok (Some (JStr "c", JStr "g", JStr "v")).
Proof.
  split; [reflexivity|].
  pose proof (solver_scenario fixed_now webhook_up decimal_int submit_X scenario_checks no_interruption
                "gt" "challenge" "userid" (JStr "X") (mkWorld [] [] 0)
                eq_refl eq_refl eq_refl eq_refl eq_refl) as H.
  destruct (_verify_captcha fixed_now webhook_up decimal_int submit_X scenario_checks no_interruption
              "gt" "challenge" "userid" (mkWorld [] [] 0)) as [r w'].
  cbn [webhook_up no_interruption] in H. exact (proj1 (proj2 (proj2 H))).
Defined.






(** ** The rank cache *)

Lemma cache_get_set_same user_id ranks cache :
  cache_get user_id (cache_set user_id ranks cache) = Some ranks.
Proof.
  induction cache as [|[k v] cache IH]; simpl.
  - now rewrite Z.eqb_refl.
  - destruct (k =? user_id) eqn:E; simpl; rewrite E; [reflexivity|exact IH].
Qed.

Lemma cache_get_set_other user_id other ranks cache :
  other <> user_id ->
  cache_get user_id (cache_set other ranks cache) = cache_get user_id cache.
Proof.
  intros Hne. induction cache as [|[k v] cache IH]; simpl.
  - destruct (Z.eqb_spec other user_id); [contradiction|reflexivity].
  - destruct (Z.eqb_spec k other) as [->|Hk]; simpl.
    + destruct (Z.eqb_spec other user_id); [contradiction|reflexivity].
    + destruct (k =? user_id); [reflexivity|exact IH].
Qed.

Lemma cache_set_keys user_id ranks cache old :
  cache_get user_id cache = Some old ->
  map fst (cache_set user_id ranks cache) = map fst cache.
Proof.
  induction cache as [|[k v] cache IH]; simpl; [discriminate|].
  destruct (k =? user_id); simpl; [reflexivity|].
  intros H. now rewrite (IH H).
Qed.

(** ** One user of the watch loop *)

Lemma in_workwx_eq {A : Type} (m : M A) (st : watcher) :
  in_workwx m st =
  (fst (m (workwx st)), with_workwx (fun _ => snd (m (workwx st))) st).
Proof. unfold in_workwx. destruct (m (workwx st)); reflexivity. Qed.

Section WatchFacts.

Variable now : nat -> string.
Variable post_reply : nat -> option exn.

(** The handler on the title error. *)
Lemma on_query_error_title e st changed :
  contains "回到标题界面" e = true ->
  on_query_error now post_reply e st changed =
  (with_counts (user_query_error_count st) 3 st, changed, ForBreak).
Proof. intros He. unfold on_query_error. rewrite He. reflexivity. Qed.

(** The handler on a plain error below the threshold. *)
Lemma on_query_error_skipped e st changed :
  contains "回到标题界面" e = false ->
  (S (user_query_error_count st) < 3)%nat ->
  on_query_error now post_reply e st changed =
  (with_counts (S (user_query_error_count st)) (user_notify_error_count st) st,
   changed, ForNext).
Proof.
  intros He Hlt. unfold on_query_error. rewrite He.
  cbn [with_counts user_query_error_count].
  apply Nat.ltb_lt in Hlt. rewrite Hlt. reflexivity.
Qed.

(** The handler on a plain error that reaches the threshold. *)
Lemma on_query_error_reported e st changed :
  contains "回到标题界面" e = false ->
  (3 <= S (user_query_error_count st))%nat ->
  on_query_error now post_reply e st changed =
  let st1 :=
    with_workwx
      (fun w => snd (send_message now post_reply ("用户信息查询失败：" ++ e) false w))
      (with_counts (S (user_query_error_count st)) (user_notify_error_count st) st) in
  match post_reply (clock (workwx st)) with
  | None => (with_counts 0 (S (user_notify_error_count st)) st1, changed, ForBreak)
  | Some e' => (st1, changed, ForRaise e')
  end.
Proof.
  intros He Hge. unfold on_query_error. rewrite He.
  cbn [with_counts user_query_error_count].
  apply Nat.ltb_ge in Hge. rewrite Hge. rewrite in_workwx_eq.
  cbn [with_counts workwx]. rewrite send_message_result.
  destruct (post_reply (clock (workwx st))); reflexivity.
Qed.

Lemma watch_user_same name j p user_id st changed :
  cache_get user_id (pcr_cache st) = Some (j, p) ->
  watch_user now post_reply (QueryProfile name j p) user_id st changed =
  (with_counts 0 0 (with_workwx (emit (EvQuery user_id)) st), changed, ForNext).
Proof.
  intros H. unfold watch_user. rewrite H, !Z.eqb_refl. reflexivity.
Qed.

Lemma watch_user_moved name old_j old_p j p user_id st changed :
  cache_get user_id (pcr_cache st) = Some (old_j, old_p) ->
  ((old_j =? j) && (old_p =? p))%bool = false ->
  watch_user now post_reply (QueryProfile name j p) user_id st changed =
  (with_workwx
     (fun w => snd (send_message now post_reply
                      (change_message name old_j old_p j p) true w))
     (store_ranks user_id (j, p)
        (with_counts 0 0 (with_workwx (emit (EvQuery user_id)) st))),
   true, ForNext).
Proof.
  intros H Hne. unfold watch_user. rewrite H.
  destruct (old_j =? j), (old_p =? p); try discriminate Hne; reflexivity.
Qed.

Lemma watch_user_title e ranks user_id st changed :
  cache_get user_id (pcr_cache st) = Some ranks ->
  contains "回到标题界面" e = true ->
  watch_user now post_reply (QueryRaises e) user_id st changed =
  (with_counts (user_query_error_count st) 3
     (with_workwx (emit (EvQuery user_id)) st), changed, ForBreak).
Proof.
  intros H He. unfold watch_user. rewrite H. destruct ranks.
  rewrite on_query_error_title by exact He. reflexivity.
Qed.

Lemma watch_user_skipped e ranks user_id st changed :
  cache_get user_id (pcr_cache st) = Some ranks ->
  contains "回到标题界面" e = false ->
  (S (user_query_error_count st) < 3)%nat ->
  watch_user now post_reply (QueryRaises e) user_id st changed =
  (with_counts (S (user_query_error_count st)) (user_notify_error_count st)
     (with_workwx (emit (EvQuery user_id)) st), changed, ForNext).
Proof.
  intros H He Hlt. unfold watch_user. rewrite H. destruct ranks.
  rewrite on_query_error_skipped by assumption. reflexivity.
Qed.

Lemma watch_user_reported e ranks user_id st changed :
  cache_get user_id (pcr_cache st) = Some ranks ->
  contains "回到标题界面" e = false ->
  (3 <= S (user_query_error_count st))%nat ->
  watch_user now post_reply (QueryRaises e) user_id st changed =
  let st1 :=
    with_workwx
      (fun w => snd (send_message now post_reply ("用户信息查询失败：" ++ e) false w))
      (with_counts (S (user_query_error_count st)) (user_notify_error_count st)
         (with_workwx (emit (EvQuery user_id)) st)) in
  match post_reply (clock (workwx st)) with
  | None => (with_counts 0 (S (user_notify_error_count st)) st1, changed, ForBreak)
  | Some e' => (st1, changed, ForRaise e')
  end.
Proof.
  intros H He Hge. unfold watch_user. rewrite H. destruct ranks.
  rewrite on_query_error_reported by assumption. reflexivity.
Qed.

(** The handler leaves the cache alone. *)
Lemma on_query_error_cache e st changed :
  pcr_cache (fst (fst (on_query_error now post_reply e st changed))) = pcr_cache st.
Proof.
  unfold on_query_error. destruct (contains _ e); [reflexivity|].
  cbn [with_counts user_query_error_count].
  destruct (S (user_query_error_count st) <? 3)%nat; [reflexivity|].
  rewrite in_workwx_eq.
  destruct (fst (send_message now post_reply _ false _)); reflexivity.
Qed.

(** A pass for one key leaves the entry of a user alone, when that user's own
    reply shows the ranks the cache holds. *)
Lemma watch_user_frame reply key user_id name j p st changed :
  cache_get user_id (pcr_cache st) = Some (j, p) ->
  (key = user_id -> reply = QueryProfile name j p) ->
  cache_get user_id
    (pcr_cache (fst (fst (watch_user now post_reply reply key st changed))))
    = Some (j, p).
Proof.
  intros Hu Hk. unfold watch_user.
  destruct (cache_get key (pcr_cache st)) as [[old_j old_p]|] eqn:Eg; [|exact Hu].
  destruct reply as [e| |e|n qj qp].
  - rewrite on_query_error_cache. exact Hu.
  - exact Hu.
  - rewrite on_query_error_cache. exact Hu.
  - destruct ((negb (negb (old_j =? qj)) && negb (negb (old_p =? qp)))%bool) eqn:E;
      [exact Hu|].
    cbn [fst]. rewrite in_workwx_eq. cbn [snd].
    unfold store_ranks, with_workwx, with_cache, with_counts.
    cbn [pcr_cache].
    destruct (Z.eq_dec key user_id) as [->|Hne].
    + specialize (Hk eq_refl). injection Hk as -> -> ->.
      rewrite Hu in Eg. injection Eg as <- <-.
      rewrite !Z.eqb_refl in E. discriminate E.
    + rewrite cache_get_set_other by exact Hne. exact Hu.
Qed.

Lemma for_users_frame replies keys user_id name j p :
  replies user_id = QueryProfile name j p ->
  forall st changed,
  cache_get user_id (pcr_cache st) = Some (j, p) ->
  cache_get user_id
    (pcr_cache (fst (fst (for_users now post_reply replies keys st changed))))
    = Some (j, p).
Proof.
  intros Hr. induction keys as [|k keys IH]; intros st changed Hu; [exact Hu|].
  cbn [for_users].
  pose proof (watch_user_frame (replies k) k user_id name j p st changed Hu) as Hf.
  destruct (watch_user now post_reply (replies k) k st changed) as [[st' ch'] [| |e]];
    cbn [fst] in *.
  - apply IH. apply Hf. intros ->. exact Hr.
  - apply Hf. intros ->. exact Hr.
  - apply Hf. intros ->. exact Hr.
Qed.

(** The end of a cycle touches neither the counters nor the event nor the
    cache. *)
Lemma end_cycle_counts st changed :
  user_notify_error_count (fst (end_cycle now post_reply st changed))
    = user_notify_error_count st /\
  user_query_error_count (fst (end_cycle now post_reply st changed))
    = user_query_error_count st /\
  watch_event (fst (end_cycle now post_reply st changed)) = watch_event st /\
  pcr_cache (fst (end_cycle now post_reply st changed)) = pcr_cache st.
Proof.
  unfold end_cycle. destruct changed; [|repeat split].
  rewrite in_workwx_eq.
  destruct (fst (send_message now post_reply _ false _)); repeat split.
Qed.

(** A cycle is its [for] loop followed by its end, unless the loop raised. *)
Lemma watch_cycle_eq replies st :
  watch_cycle now post_reply replies st =
  match for_users now post_reply replies (map fst (pcr_cache st)) st false with
  | (st', _, ForRaise e) => (st', Some e)
  | (st', changed, _) => end_cycle now post_reply st' changed
  end.
Proof. reflexivity. Qed.

End WatchFacts.

(** C9.  When the ranks queried for a user are the ranks the cache holds for
    that user, the pass for the user only makes the query: nothing is put on
    the queue, nothing is delivered, the cache is as before and the
    change flag of the cycle is untouched; and whatever the other users'
    queries give, the user's stored ranks are the same after the [for] loop
    and after the whole cycle. *)
Theorem unchanged_ranks_are_silent (now : nat -> string)
  (post_reply : nat -> option exn)
  (replies : Z -> query_reply) (keys : list Z) (user_id : Z) (name : string)
  (j p : Z) (st : watcher) (changed : bool) :
  cache_get user_id (pcr_cache st) = Some (j, p) ->
  replies user_id = QueryProfile name j p ->
  let '(st1, changed1, flow1) :=
    watch_user now post_reply (replies user_id) user_id st changed in
  pcr_cache st1 = pcr_cache st /\
  queue (workwx st1) = queue (workwx st) /\
  trace (workwx st1) = (trace (workwx st) ++ [EvQuery user_id])%list /\
  posts (trace (workwx st1)) = posts (trace (workwx st)) /\
  puts (trace (workwx st1)) = puts (trace (workwx st)) /\
  changed1 = changed /\ flow1 = ForNext /\
  cache_get user_id
    (pcr_cache (fst (fst (for_users now post_reply replies keys st changed))))
    = Some (j, p) /\
  cache_get user_id (pcr_cache (fst (watch_cycle now post_reply replies st)))
    = Some (j, p).
Proof.
  intros Hu Hr.
  rewrite Hr, (watch_user_same now post_reply name j p user_id st changed Hu).
  cbn [with_counts with_workwx pcr_cache workwx emit queue trace].
  rewrite posts_app, puts_app. simpl. rewrite !app_nil_r.
  repeat split.
  - exact (for_users_frame now post_reply replies keys user_id name j p Hr st changed Hu).
  - rewrite watch_cycle_eq.
    pose proof (for_users_frame now post_reply replies (map fst (pcr_cache st)) user_id
                  name j p Hr st false Hu) as Hf.
    destruct (for_users now post_reply replies (map fst (pcr_cache st)) st false)
      as [[st' ch'] fl]. cbn [fst] in Hf.
    destruct fl; cbn [fst]; try exact Hf;
      rewrite (proj2 (proj2 (proj2 (end_cycle_counts now post_reply st' ch'))));
      exact Hf.
Qed.

Lemma unchanged_ranks_are_silent_witness :
  cache_get 1 (pcr_cache two_users) = Some (100, 50) /\
  cache_get 1
    (pcr_cache
       (fst (watch_cycle fixed_now webhook_up
               (fun u => if u =? 1 then QueryProfile "U" 100 50
                         else QueryProfile "V" 3 7)
               two_users))) = Some (100, 50).
Proof.
  split; [reflexivity|].
  pose proof (unchanged_ranks_are_silent fixed_now webhook_up
                (fun u => if u =? 1 then QueryProfile "U" 100 50 else QueryProfile "V" 3 7)
                [1; 2] 1 "U" 100 50 two_users false eq_refl eq_refl) as H.
  cbv beta iota in H.
  destruct (watch_user fixed_now webhook_up _ 1 two_users false) as [[st1 c1] f1].
  exact (proj2 (proj2 (proj2 (proj2 (proj2 (proj2 (proj2 (proj2 H)))))))).
Defined.

(** C2, as stated, fails on the order.  For user 1 stored at (100, 50) and
    queried at (95, 50), the pass makes the query, then writes the cache, then
    puts the change message on the queue: the cache is written before the
    message is queued, and no put comes before the write. *)
Lemma update_order_counterexample :
  let '(st1, _, _) :=
    watch_user fixed_now webhook_up (QueryProfile "U" 95 50) 1 two_users false in
  trace (workwx st1)
    = [EvQuery 1; EvCacheSet 1 (95, 50);
       EvPut (stamp fixed_now 0 (change_message "U" 100 50 95 50))]
  /\ occurs_before is_cache_set is_put (trace (workwx st1)) = true
  /\ occurs_before is_put is_cache_set (trace (workwx st1)) <> true.
Proof.
  vm_compute. repeat split. discriminate.
Qed.

(** C2, amended.  When the ranks queried for a user differ from the stored
    pair, the change message is computed from the pair the cache holds at that
    moment; the cache is then set to the queried pair, and only after that is
    the message put on the queue as a low-priority message (nothing is
    delivered).  The next comparison for the user reads the pair just stored:
    the same ranks queried again change nothing. *)
Theorem ranks_stored_before_enqueue (now : nat -> string)
  (post_reply : nat -> option exn) (user_id : Z)
  (name name' : string) (old_j old_p j p : Z) (st : watcher) (changed changed' : bool) :
  cache_get user_id (pcr_cache st) = Some (old_j, old_p) ->
  (old_j, old_p) <> (j, p) ->
  let text := stamp now (clock (workwx st)) (change_message name old_j old_p j p) in
  let '(st1, changed1, flow1) :=
    watch_user now post_reply (QueryProfile name j p) user_id st changed in
  trace (workwx st1)
    = (trace (workwx st) ++ [EvQuery user_id; EvCacheSet user_id (j, p); EvPut text])%list /\
  queue (workwx st1) = (queue (workwx st) ++ [text])%list /\
  pcr_cache st1 = cache_set user_id (j, p) (pcr_cache st) /\
  cache_get user_id (pcr_cache st1) = Some (j, p) /\
  changed1 = true /\ flow1 = ForNext /\
  watch_user now post_reply (QueryProfile name' j p) user_id st1 changed'
    = (with_counts 0 0 (with_workwx (emit (EvQuery user_id)) st1), changed', ForNext).
Proof.
  intros Hu Hne text.
  assert (Hb : ((old_j =? j) && (old_p =? p))%bool = false).
  { destruct (Z.eqb_spec old_j j) as [->|]; [|reflexivity].
    destruct (Z.eqb_spec old_p p) as [->|]; [|reflexivity].
    exfalso. apply Hne. reflexivity. }
  rewrite (watch_user_moved now post_reply name old_j old_p j p user_id st changed Hu Hb).
  assert (Hg : cache_get user_id (cache_set user_id (j, p) (pcr_cache st)) = Some (j, p))
    by apply cache_get_set_same.
  repeat split.
  - unfold store_ranks, with_workwx, with_cache, with_counts. cbn [workwx pcr_cache].
    rewrite send_message_delay. unfold emit. cbn [snd trace queue clock].
    rewrite <- !app_assoc. reflexivity.
  - exact Hg.
  - apply watch_user_same. exact Hg.
Qed.

Lemma ranks_stored_before_enqueue_witness :
  cache_get 1 (pcr_cache two_users) = Some (100, 50) /\
  (100, 50) <> (95, 50) /\
  cache_get 1
    (pcr_cache (fst (fst (watch_user fixed_now webhook_up (QueryProfile "U" 95 50) 1
                            two_users false)))) = Some (95, 50).
Proof.
  assert (Hne : (100, 50) <> (95, 50)) by discriminate.
  split; [reflexivity|]. split; [exact Hne|].
  pose proof (ranks_stored_before_enqueue fixed_now webhook_up 1 "U" "U" 100 50 95 50
                two_users false false eq_refl Hne) as H.
  cbv zeta in H.
  destruct (watch_user fixed_now webhook_up (QueryProfile "U" 95 50) 1 two_users false)
    as [[st1 c1] f1].
  exact (proj1 (proj2 (proj2 (proj2 H)))).
Defined.

(** ** The error counters *)

(** C5.  When the query for a user raises an exception whose text contains
    [回到标题界面], the counter of reported errors is set to 3 whatever it
    was, the counter of query errors is left as it is, and the [for] loop
    breaks at once: the users after this one are not queried.  After the rest
    of the cycle the condition of the inner [while] is false, so the polling
    loop ends without another cycle and control goes back to the top of the
    outer loop, where the login is.  When the user is the first of the cycle,
    the whole cycle is that one query and the sleep of 3 seconds. *)
Theorem title_error_forces_relogin (now : nat -> string)
  (post_reply : nat -> option exn) (should_login : nat -> bool)
  (sdk_login : nat -> M unit)
  (replies : Z -> query_reply) (user_id : Z) (rest : list Z) (e : string)
  (ranks : Z * Z) (st : watcher) (changed : bool) :
  cache_get user_id (pcr_cache st) = Some ranks ->
  replies user_id = QueryRaises e ->
  contains "回到标题界面" e = true ->
  let st1 :=
    with_counts (user_query_error_count st) 3
      (with_workwx (emit (EvQuery user_id)) st) in
  let st2 := fst (end_cycle now post_reply st1 changed) in
  watch_user now post_reply (replies user_id) user_id st changed
    = (st1, changed, ForBreak) /\
  user_notify_error_count st1 = 3%nat /\
  for_users now post_reply replies (user_id :: rest) st changed
    = (st1, changed, ForBreak) /\
  polling_cond st2 = false /\
  (forall fuel cycles signals n,
     polling now post_reply fuel cycles signals n st2 = Some (st2, None)) /\
  watch_step now post_reply should_login sdk_login
    (Polling, st2) (LoggingIn, with_workwx (sleep 3) st2) /\
  (forall m, watch_step now post_reply should_login sdk_login (Polling, st2) m ->
             m = (LoggingIn, with_workwx (sleep 3) st2)) /\
  (map fst (pcr_cache st) = user_id :: rest ->
   watch_cycle now post_reply replies st = (with_workwx (sleep 3) st1, None)).
Proof.
  intros Hu Hr He st1 st2.
  assert (Hw : watch_user now post_reply (replies user_id) user_id st changed
               = (st1, changed, ForBreak)).
  { rewrite Hr. exact (watch_user_title now post_reply e ranks user_id st changed Hu He). }
  assert (Hc : polling_cond st2 = false).
  { unfold polling_cond, st2.
    destruct (end_cycle_counts now post_reply st1 changed) as (Hn & _ & _ & _).
    rewrite Hn. cbn. apply andb_false_r. }
  split; [exact Hw|]. split; [reflexivity|]. split; [|split; [exact Hc|split; [|split; [|split]]]].
  - cbn [for_users]. rewrite Hw. reflexivity.
  - intros fuel cycles signals n. destruct fuel; cbn [polling]; rewrite Hc; reflexivity.
  - apply StepLeave. exact Hc.
  - intros m Hm. inversion Hm; subst; first [reflexivity|congruence].
  - intros Hk. rewrite watch_cycle_eq, Hk. cbn [for_users].
    rewrite Hr, (watch_user_title now post_reply e ranks user_id st false Hu He).
    reflexivity.
Qed.

Lemma title_error_forces_relogin_witness :
  cache_get 1 (pcr_cache two_users) = Some (100, 50) /\
  contains "回到标题界面" "请回到标题界面重新登录" = true /\
  user_notify_error_count
    (fst (fst (for_users fixed_now webhook_up
                 (fun _ => QueryRaises "请回到标题界面重新登录")
                 [1; 2] two_users false))) = 3%nat.
Proof.
  split; [reflexivity|]. split; [reflexivity|].
  pose proof (title_error_forces_relogin fixed_now webhook_up login_once sdk_accepts
                (fun _ => QueryRaises "请回到标题界面重新登录") 1 [2]
                "请回到标题界面重新登录" (100, 50) two_users false
                eq_refl eq_refl eq_refl) as H.
  cbv zeta in H. destruct H as (_ & Hn & Hf & _).
  rewrite Hf. exact Hn.
Defined.

(** C4, as stated, fails when more than one user is watched.  With users 1
    and 2 both failing, the first cycle ends with nothing sent; in the second
    cycle the query for user 1 fails for the second time only, and the
    failure notification is delivered there, the counter having been raised
    by the failure of user 2 in between. *)
Lemma shared_threshold_counterexample :
  let st1 := fst (watch_cycle fixed_now webhook_up all_timeout two_users) in
  let st2 := fst (watch_cycle fixed_now webhook_up all_timeout st1) in
  trace (workwx st1) = [EvQuery 1; EvQuery 2; EvSleep 3]
  /\ trace (workwx st2)
     = [EvQuery 1; EvQuery 2; EvSleep 3; EvQuery 1;
        EvPost (stamp fixed_now 0 "用户信息查询失败：timeout"); EvSleep 3]
  /\ user_notify_error_count st2 = 1%nat
  /\ ~ posts (trace (workwx st2)) = [].
Proof.
  vm_compute. repeat split. discriminate.
Qed.

(** C4, amended.  The threshold is on the one counter of query errors that all
    users share.  When a query raises an error that is not the title one, the
    counter goes up by one.  While it is still below 3 the user is skipped:
    nothing is sent, the counter of reported errors is as before, and the loop
    goes on with the next user.  When it reaches 3 (the third failure in a row
    since the last success or report, whichever users failed), exactly one
    failure notification is posted, with what was pending.  When that POST
    returns, the counter of query errors is back to 0, the counter of reported
    errors is one more, and the [for] loop breaks for this cycle only: the
    polling goes on when that counter is still below 3 and no stop was asked.
    When that POST raises, the error leaves the [for] loop and the cycle with
    the counter of query errors still at 3 and the counter of reported errors
    as before. *)
Theorem third_failure_is_reported (now : nat -> string)
  (post_reply : nat -> option exn)
  (replies : Z -> query_reply) (user_id : Z) (rest : list Z) (e : string)
  (ranks : Z * Z) (st : watcher) (changed : bool) :
  cache_get user_id (pcr_cache st) = Some ranks ->
  replies user_id = QueryRaises e ->
  contains "回到标题界面" e = false ->
  let '(st1, changed1, flow1) :=
    watch_user now post_reply (replies user_id) user_id st changed in
  changed1 = changed /\
  pcr_cache st1 = pcr_cache st /\
  ((S (user_query_error_count st) < 3)%nat ->
     flow1 = ForNext /\
     user_query_error_count st1 = S (user_query_error_count st) /\
     user_notify_error_count st1 = user_notify_error_count st /\
     workwx st1 = emit (EvQuery user_id) (workwx st)) /\
  (user_query_error_count st = 2%nat ->
     queue (workwx st1) = [] /\
     trace (workwx st1) =
       (trace (workwx st) ++
        [EvQuery user_id;
         EvPost (join (LF ++ LF)
                   (queue (workwx st) ++
                    [(now (clock (workwx st)) ++ LF ++ marker
                      ++ "用户信息查询失败：" ++ e)%string])%list)])%list /\
     match post_reply (clock (workwx st)) with
     | None =>
         flow1 = ForBreak /\
         user_query_error_count st1 = 0%nat /\
         user_notify_error_count st1 = S (user_notify_error_count st) /\
         for_users now post_reply replies (user_id :: rest) st changed
           = (st1, changed, ForBreak) /\
         polling_cond (fst (end_cycle now post_reply st1 changed)) =
           (negb (watch_event st) && (S (user_notify_error_count st) <? 3)%nat)%bool
     | Some e' =>
         flow1 = ForRaise e' /\
         user_query_error_count st1 = 3%nat /\
         user_notify_error_count st1 = user_notify_error_count st /\
         for_users now post_reply replies (user_id :: rest) st changed
           = (st1, changed, ForRaise e') /\
         (map fst (pcr_cache st) = user_id :: rest ->
          watch_cycle now post_reply replies st = (st1, Some e'))
     end).
Proof.
  intros Hu Hr He.
  destruct (Nat.lt_ge_cases (S (user_query_error_count st)) 3) as [Hlt|Hge].
  - pose proof (watch_user_skipped now post_reply e ranks user_id st changed Hu He Hlt)
      as Hw.
    rewrite Hr, Hw. split; [reflexivity|]. split; [reflexivity|]. split.
    + intros _. repeat split.
    + intros H2. exfalso. lia.
  - pose proof (watch_user_reported now post_reply e ranks user_id st changed Hu He Hge)
      as Hw.
    pose proof (watch_user_reported now post_reply e ranks user_id st false Hu He Hge)
      as Hw0.
    cbv zeta in Hw, Hw0. cbn [for_users]. rewrite watch_cycle_eq. rewrite Hr, Hw.
    cbn [with_workwx with_counts workwx emit clock] in *.
    destruct (post_reply (clock (workwx st))) as [e'|];
      (split; [reflexivity|]); (split; [reflexivity|]); (split; [intros Hlt; exfalso; lia|]);
      intros H2; cbn [with_counts with_workwx workwx pcr_cache user_query_error_count
                      user_notify_error_count];
      rewrite send_message_world; cbn [queue trace]; unfold stamp, emit;
      cbn [queue trace clock];
      (split; [reflexivity|]); (split; [now rewrite <- app_assoc|]).
    + split; [reflexivity|]. split; [rewrite H2; reflexivity|].
      split; [reflexivity|]. split; [reflexivity|].
      intros Hk. rewrite Hk. cbn [for_users]. rewrite Hr, Hw0. reflexivity.
    + split; [reflexivity|]. split; [reflexivity|]. split; [reflexivity|].
      split; [reflexivity|].
      unfold polling_cond.
      match goal with
      | |- context [end_cycle now post_reply ?s changed] =>
          destruct (end_cycle_counts now post_reply s changed) as (Hn & _ & Hev & _);
          rewrite Hn, Hev
      end.
      reflexivity.
Qed.

Lemma third_failure_is_reported_witness :
  cache_get 1 (pcr_cache (with_counts 2 0 two_users)) = Some (100, 50) /\
  contains "回到标题界面" "timeout" = false /\
  posts (trace (workwx (fst (fst (watch_user fixed_now webhook_up (all_timeout 1) 1
                                    (with_counts 2 0 two_users) false)))))
    = [stamp fixed_now 0 "用户信息查询失败：timeout"] /\
  user_query_error_count
    (fst (fst (watch_user fixed_now webhook_down (all_timeout 1) 1
                 (with_counts 2 0 two_users) false))) = 3%nat.
Proof.
  split; [reflexivity|]. split; [reflexivity|]. split.
  - pose proof (third_failure_is_reported fixed_now webhook_up all_timeout 1 [2] "timeout"
                  (100, 50) (with_counts 2 0 two_users) false
                  eq_refl eq_refl eq_refl) as H.
    destruct (watch_user fixed_now webhook_up (all_timeout 1) 1
                (with_counts 2 0 two_users) false) as [[st1 c1] f1].
    destruct H as (_ & _ & _ & H). destruct (H eq_refl) as (_ & Htr & _).
    cbn [fst]. rewrite Htr. reflexivity.
  - pose proof (third_failure_is_reported fixed_now webhook_down all_timeout 1 [2]
                  "timeout" (100, 50) (with_counts 2 0 two_users) false
                  eq_refl eq_refl eq_refl) as H.
    destruct (watch_user fixed_now webhook_down (all_timeout 1) 1
                (with_counts 2 0 two_users) false) as [[st1 c1] f1].
    destruct H as (_ & _ & _ & H). destruct (H eq_refl) as (_ & _ & H3).
    cbn [webhook_down] in H3. exact (proj1 (proj2 H3)).
Defined.

(** C3, as stated, fails: the counter of query errors is one attribute of the
    watcher, not one per user.  After a cycle in which user 2 fails once, the
    counter reads 1 when the query for user 1 succeeded and 2 when it failed
    too: the failure of user 1 is counted with the failure of user 2. *)
Lemma shared_counter_counterexample :
  user_query_error_count
    (fst (fst (for_users fixed_now webhook_up only_second_fails [1; 2]
                 two_users false))) = 1%nat
  /\ user_query_error_count
       (fst (fst (for_users fixed_now webhook_up all_timeout [1; 2]
                    two_users false))) = 2%nat
  /\ user_query_error_count
       (fst (fst (for_users fixed_now webhook_up all_timeout [1; 2] two_users false)))
     <> user_query_error_count
          (fst (fst (for_users fixed_now webhook_up only_second_fails [1; 2]
                       two_users false))).
Proof.
  vm_compute. repeat split. discriminate.
Qed.

(** C3, amended.  Both counters are attributes of the watcher, shared by all
    users.  The failures of different users in one cycle add up in the one
    counter of query errors: after the users of [keys] have all failed with a
    plain error, it has grown by their number (as long as it stays below 3),
    with nothing sent and the counter of reported errors untouched.  And a
    successful query of any user sets both counters to 0. *)
Theorem error_counters_are_shared (now : nat -> string)
  (post_reply : nat -> option exn)
  (replies : Z -> query_reply) (keys : list Z) (st : watcher) (changed : bool) :
  (forall k, In k keys -> cache_get k (pcr_cache st) <> None) ->
  (forall k, In k keys ->
     exists e, replies k = QueryRaises e /\ contains "回到标题界面" e = false) ->
  (user_query_error_count st + List.length keys < 3)%nat ->
  let '(st1, changed1, flow1) := for_users now post_reply replies keys st changed in
  user_query_error_count st1 = (user_query_error_count st + List.length keys)%nat /\
  user_notify_error_count st1 = user_notify_error_count st /\
  pcr_cache st1 = pcr_cache st /\
  queue (workwx st1) = queue (workwx st) /\
  posts (trace (workwx st1)) = posts (trace (workwx st)) /\
  changed1 = changed /\ flow1 = ForNext /\
  (forall user_id name j p ranks st0 changed0,
     cache_get user_id (pcr_cache st0) = Some ranks ->
     let st2 :=
       fst (fst (watch_user now post_reply (QueryProfile name j p) user_id st0 changed0)) in
     user_query_error_count st2 = 0%nat /\ user_notify_error_count st2 = 0%nat).
Proof.
  assert (Hreset : forall user_id name j p ranks st0 changed0,
             cache_get user_id (pcr_cache st0) = Some ranks ->
             let st2 :=
               fst (fst (watch_user now post_reply (QueryProfile name j p) user_id
                           st0 changed0)) in
             user_query_error_count st2 = 0%nat /\ user_notify_error_count st2 = 0%nat).
  { intros user_id name j p [old_j old_p] st0 changed0 H0 st2. subst st2.
    unfold watch_user. rewrite H0.
    destruct (negb (negb (old_j =? j)) && negb (negb (old_p =? p)))%bool;
      split; reflexivity. }
  revert st. induction keys as [|k keys IH]; intros st Hin Hfail Hlt.
  - cbn [for_users List.length]. split; [lia|].
    do 6 (split; [reflexivity|]). exact Hreset.
  - cbn [for_users List.length] in *.
    destruct (Hfail k (or_introl eq_refl)) as (e & Hr & He).
    destruct (cache_get k (pcr_cache st)) as [ranks|] eqn:Hk;
      [|exfalso; exact (Hin k (or_introl eq_refl) Hk)].
    assert (Hs : (S (user_query_error_count st) < 3)%nat) by lia.
    rewrite Hr, (watch_user_skipped now post_reply e ranks k st changed Hk He Hs).
    match goal with
    | |- context [for_users now post_reply replies keys ?s changed] =>
        specialize (IH s); set (s1 := s) in *
    end.
    assert (Hin1 : forall k0, In k0 keys -> cache_get k0 (pcr_cache s1) <> None)
      by (intros k0 H0; apply Hin; right; exact H0).
    assert (Hfail1 : forall k0, In k0 keys ->
              exists e0, replies k0 = QueryRaises e0 /\
                         contains "回到标题界面" e0 = false)
      by (intros k0 H0; apply Hfail; right; exact H0).
    assert (Hlt1 : (user_query_error_count s1 + List.length keys < 3)%nat)
      by (subst s1; cbn [with_counts user_query_error_count]; lia).
    specialize (IH Hin1 Hfail1 Hlt1).
    destruct (for_users now post_reply replies keys s1 changed) as [[st1 c1] f1].
    destruct IH as (Hq & Hn & Hc & Hqu & Hp & Hch & Hf & _).
    subst s1. cbn [with_counts with_workwx user_query_error_count
                   user_notify_error_count pcr_cache workwx emit queue trace] in *.
    rewrite posts_app in Hp. simpl in Hp. rewrite app_nil_r in Hp.
    subst f1.
    split; [lia|]. split; [exact Hn|]. split; [exact Hc|]. split; [exact Hqu|].
    split; [exact Hp|]. split; [exact Hch|]. split; [reflexivity|]. exact Hreset.
Qed.

Lemma error_counters_are_shared_witness :
  (forall k, In k [1; 2] -> cache_get k (pcr_cache two_users) <> None) /\
  (user_query_error_count two_users + List.length [1; 2] < 3)%nat /\
  user_query_error_count
    (fst (fst (for_users fixed_now webhook_up all_timeout [1; 2] two_users false)))
    = 2%nat.
Proof.
  assert (Hin : forall k, In k [1; 2] -> cache_get k (pcr_cache two_users) <> None).
  { intros k [<-|[<-|[]]]; discriminate. }
  assert (Hlt : (user_query_error_count two_users + List.length [1; 2] < 3)%nat)
    by (simpl; lia).
  split; [exact Hin|]. split; [exact Hlt|].
  pose proof (error_counters_are_shared fixed_now webhook_up all_timeout [1; 2]
                two_users false
                Hin (fun k _ => ex_intro _ "timeout" (conj eq_refl eq_refl)) Hlt) as H.
  destruct (for_users fixed_now webhook_up all_timeout [1; 2] two_users false)
    as [[st1 c1] f1].
  exact (proj1 H).
Defined.

(** * Further properties *)

(** ** The notification channel under a burst *)

Lemma posts_of_puts (l : list string) : posts (map EvPut l) = [].
Proof. induction l as [|x l IH]; [reflexivity | exact IH]. Qed.

Lemma send_delayed_world now post_reply messages w :
  send_delayed now post_reply messages w =
  mkWorld (queue w ++ stamps_from now (clock w) messages)%list
          (trace w ++ map EvPut (stamps_from now (clock w) messages))%list
          (clock w + List.length messages).
Proof.
  unfold send_delayed. revert w.
  induction messages as [|m messages IH]; intros w; cbn [fold_left stamps_from map List.length].
  - rewrite !app_nil_r, Nat.add_0_r. destruct w; reflexivity.
  - rewrite IH, send_message_delay. cbn [snd queue trace clock].
    rewrite <- !app_assoc, Nat.add_succ_r. reflexivity.
Qed.

(** X1.  However many low-priority messages are sent in a row, nothing is
    delivered while they are buffered; the next high-priority message makes
    one POST that carries what was pending before, then the buffered
    messages in the order they were sent, then the triggering one, each
    stamped at its own reading of the clock, and leaves the queue empty; the
    send returns when the POST does. *)
Theorem burst_is_delivered_once (now : nat -> string) (post_reply : nat -> option exn)
  (messages : list string) (message : string) (w : world) :
  let w1 := send_delayed now post_reply messages w in
  let w2 := snd (send_message now post_reply message false w1) in
  posts (trace w1) = posts (trace w) /\
  queue w1 = (queue w ++ stamps_from now (clock w) messages)%list /\
  queue w2 = [] /\
  posts (trace w2) =
    (posts (trace w) ++
     [join (LF ++ LF)
        (queue w ++ stamps_from now (clock w) messages ++
         [stamp now (clock w + List.length messages) message])%list])%list /\
  clock w2 = S (clock w + List.length messages) /\
  fst (send_message now post_reply message false w1) =
    match post_reply (clock w + List.length messages)%nat with
    | None => Ok tt
    | Some e => Raise e
    end.
Proof.
  intros w1 w2. subst w1 w2.
  rewrite send_message_world, send_message_result, send_delayed_world.
  cbn [queue trace clock].
  rewrite !posts_app, posts_of_puts, app_nil_r, <- app_assoc.
  repeat split.
Qed.

(** ** The rank cache at start *)

Lemma cache_set_keys_in user_id ranks cache x :
  In x (map fst (cache_set user_id ranks cache)) <->
  x = user_id \/ In x (map fst cache).
Proof.
  induction cache as [|[k v] cache IH]; cbn [cache_set map fst In].
  - split; [intros [H|[]]; left; congruence | intros [H|[]]; left; congruence].
  - destruct (Z.eqb_spec k user_id) as [->|Hne]; cbn [map fst In].
    + intuition congruence.
    + rewrite IH. tauto.
Qed.

Lemma cache_set_nodup user_id ranks cache :
  NoDup (map fst cache) -> NoDup (map fst (cache_set user_id ranks cache)).
Proof.
  induction cache as [|[k v] cache IH]; cbn [cache_set map fst]; intros Hnd.
  - constructor; [intros []|constructor].
  - destruct (Z.eqb_spec k user_id) as [->|Hne]; cbn [map fst]; [exact Hnd|].
    inversion Hnd as [|? ? Hk Hrest]; subst. constructor; [|exact (IH Hrest)].
    rewrite cache_set_keys_in. intros [H|H]; [congruence|contradiction].
Qed.

Lemma init_cache_from (watch_ids : list Z) (cache : list (Z * (Z * Z))) (k : Z) :
  cache_get k (fold_left (fun c watch_id => cache_set watch_id (0, 0) c) watch_ids cache)
  = if existsb (Z.eqb k) watch_ids then Some (0, 0) else cache_get k cache.
Proof.
  revert cache. induction watch_ids as [|a ids IH]; intros cache; cbn [fold_left existsb].
  - reflexivity.
  - rewrite IH. destruct (Z.eqb_spec k a) as [->|Hne]; cbn [orb].
    + rewrite cache_get_set_same. destruct (existsb _ ids); reflexivity.
    + rewrite cache_get_set_other by congruence. reflexivity.
Qed.

(** X2.  The cache built at start holds (0, 0) for every watched id and
    nothing for any other id; an id listed several times has one entry: the
    keys are exactly the listed ids, without repetition. *)
Theorem init_cache_entries (watch_ids : list Z) (k : Z) :
  cache_get k (init_cache watch_ids)
    = (if existsb (Z.eqb k) watch_ids then Some (0, 0) else None) /\
  (In k (map fst (init_cache watch_ids)) <-> In k watch_ids) /\
  NoDup (map fst (init_cache watch_ids)).
Proof.
  unfold init_cache. split; [apply init_cache_from|].
  assert (H : forall cache,
             (In k (map fst (fold_left (fun c w => cache_set w (0, 0) c) watch_ids cache))
              <-> In k watch_ids \/ In k (map fst cache)) /\
             (NoDup (map fst cache) ->
              NoDup (map fst (fold_left (fun c w => cache_set w (0, 0) c) watch_ids cache)))).
  { induction watch_ids as [|a ids IH]; intros cache; cbn [fold_left In].
    - split; [tauto|trivial].
    - destruct (IH (cache_set a (0, 0) cache)) as [Hin Hnd]. split.
      + rewrite Hin, cache_set_keys_in. intuition congruence.
      + intros H0. apply Hnd, cache_set_nodup, H0. }
  destruct (H []) as [Hin Hnd]. split.
  - rewrite Hin. cbn [map In]. tauto.
  - apply Hnd. constructor.
Qed.

(** ** What a pass of the watch loop can and cannot do *)

(** The effect of the handler of a failed query. *)
Lemma on_query_error_effect now post_reply e st changed :
  let '(st1, changed1, flow1) := on_query_error now post_reply e st changed in
  pcr_cache st1 = pcr_cache st /\
  watch_event st1 = watch_event st /\
  changed1 = changed /\
  ((queue (workwx st1) = queue (workwx st) /\
    posts (trace (workwx st1)) = posts (trace (workwx st)))
   \/ (flow1 <> ForNext /\ queue (workwx st1) = [])) /\
  (forall e', flow1 = ForRaise e' -> queue (workwx st1) = []) /\
  ((user_query_error_count st < 3)%nat -> (user_notify_error_count st < 3)%nat ->
   (user_query_error_count st1 <= 3)%nat /\ (user_notify_error_count st1 <= 3)%nat /\
   (flow1 = ForNext ->
    (user_query_error_count st1 < 3)%nat /\ (user_notify_error_count st1 < 3)%nat) /\
   (flow1 = ForBreak -> (user_query_error_count st1 < 3)%nat)).
Proof.
  destruct (contains "回到标题界面" e) eqn:He.
  - rewrite on_query_error_title by exact He.
    cbn [with_counts pcr_cache watch_event workwx user_query_error_count
         user_notify_error_count].
    repeat split; auto; try lia; try discriminate.
  - destruct (Nat.lt_ge_cases (S (user_query_error_count st)) 3) as [Hlt|Hge].
    + rewrite on_query_error_skipped by assumption.
      cbn [with_counts pcr_cache watch_event workwx user_query_error_count
           user_notify_error_count].
      repeat split; auto; try lia; try discriminate.
    + rewrite on_query_error_reported by assumption. cbv zeta.
      destruct (post_reply (clock (workwx st))) as [e'|];
        cbn [with_counts with_workwx pcr_cache watch_event workwx
             user_query_error_count user_notify_error_count];
        rewrite send_message_world; cbn [queue];
        (split; [reflexivity|]); (split; [reflexivity|]); (split; [reflexivity|]);
        (split; [right; split; [discriminate|reflexivity]|]);
        (split; [intros; reflexivity|]);
        intros Ha Hb; repeat split; try lia; try discriminate.
Qed.

(** The effect of the pass for one key, whatever the reply. *)
Lemma watch_user_effect now post_reply reply key st changed :
  let '(st1, changed1, flow1) := watch_user now post_reply reply key st changed in
  map fst (pcr_cache st1) = map fst (pcr_cache st) /\
  watch_event st1 = watch_event st /\
  (changed = true -> changed1 = true) /\
  ((changed1 = changed /\ queue (workwx st1) = queue (workwx st) /\
    posts (trace (workwx st1)) = posts (trace (workwx st)))
   \/ changed1 = true
   \/ (changed1 = changed /\ flow1 <> ForNext /\ queue (workwx st1) = [])) /\
  (forall e, flow1 = ForRaise e -> queue (workwx st1) = [] \/ is_exception e = false) /\
  ((user_query_error_count st < 3)%nat -> (user_notify_error_count st < 3)%nat ->
   (user_query_error_count st1 <= 3)%nat /\ (user_notify_error_count st1 <= 3)%nat /\
   (flow1 = ForNext ->
    (user_query_error_count st1 < 3)%nat /\ (user_notify_error_count st1 < 3)%nat) /\
   (flow1 = ForBreak -> (user_query_error_count st1 < 3)%nat)).
Proof.
  unfold watch_user.
  destruct (cache_get key (pcr_cache st)) as [[old_j old_p]|] eqn:Hk.
  2:{ repeat split; auto; try lia; try discriminate. }
  assert (Hhandler : forall st0,
            pcr_cache st0 = pcr_cache st ->
            watch_event st0 = watch_event st ->
            queue (workwx st0) = queue (workwx st) ->
            posts (trace (workwx st0)) = posts (trace (workwx st)) ->
            ((user_query_error_count st < 3)%nat ->
             (user_notify_error_count st < 3)%nat ->
             (user_query_error_count st0 < 3)%nat /\
             (user_notify_error_count st0 < 3)%nat) ->
            forall e,
            let '(st1, changed1, flow1) := on_query_error now post_reply e st0 changed in
            map fst (pcr_cache st1) = map fst (pcr_cache st) /\
            watch_event st1 = watch_event st /\
            (changed = true -> changed1 = true) /\
            ((changed1 = changed /\ queue (workwx st1) = queue (workwx st) /\
              posts (trace (workwx st1)) = posts (trace (workwx st)))
             \/ changed1 = true
             \/ (changed1 = changed /\ flow1 <> ForNext /\ queue (workwx st1) = [])) /\
            (forall e0, flow1 = ForRaise e0 ->
                        queue (workwx st1) = [] \/ is_exception e0 = false) /\
            ((user_query_error_count st < 3)%nat ->
             (user_notify_error_count st < 3)%nat ->
             (user_query_error_count st1 <= 3)%nat /\
             (user_notify_error_count st1 <= 3)%nat /\
             (flow1 = ForNext ->
              (user_query_error_count st1 < 3)%nat /\
              (user_notify_error_count st1 < 3)%nat) /\
             (flow1 = ForBreak -> (user_query_error_count st1 < 3)%nat))).
  { intros st0 Hc0 He0 Hq0 Hp0 Hn0 e.
    pose proof (on_query_error_effect now post_reply e st0 changed) as H.
    destruct (on_query_error now post_reply e st0 changed) as [[st1 c1] f1].
    destruct H as (H1 & H2 & -> & H4 & H5 & H6).
    split; [congruence|]. split; [congruence|]. split; [auto|]. split; [|split].
    - destruct H4 as [[Ha Hb]|[Ha Hb]].
      + left. repeat split; congruence.
      + right; right. repeat split; assumption.
    - intros e0 Hf. left. exact (H5 e0 Hf).
    - intros Ha Hb. destruct (Hn0 Ha Hb) as [Ha0 Hb0]. exact (H6 Ha0 Hb0). }
  destruct reply as [e| |e|name j p].
  - apply Hhandler; cbn [with_workwx pcr_cache watch_event workwx emit queue trace
                         user_query_error_count user_notify_error_count];
      try reflexivity; [rewrite posts_app, app_nil_r; reflexivity|auto].
  - cbn [with_workwx pcr_cache watch_event workwx emit queue trace
         user_query_error_count user_notify_error_count].
    rewrite posts_app, app_nil_r.
    repeat split; auto; try lia; try discriminate.
    intros e Hf. injection Hf as <-. right. reflexivity.
  - apply Hhandler; cbn [with_counts with_workwx pcr_cache watch_event workwx emit
                         queue trace user_query_error_count user_notify_error_count];
      try reflexivity; [rewrite posts_app, app_nil_r; reflexivity|intros; lia].
  - destruct (negb (negb (old_j =? j)) && negb (negb (old_p =? p)))%bool.
    + cbn [with_counts with_workwx pcr_cache watch_event workwx emit queue trace
           user_query_error_count user_notify_error_count].
      rewrite posts_app, app_nil_r.
      repeat split; auto; try lia; try discriminate.
    + rewrite in_workwx_eq. unfold store_ranks.
      cbn [snd with_counts with_workwx with_cache pcr_cache watch_event workwx
           user_query_error_count user_notify_error_count].
      rewrite (cache_set_keys key (j, p) (pcr_cache st) (old_j, old_p) Hk).
      repeat split; auto; try lia; try discriminate.
Qed.

(** The same for the whole [for] loop. *)
Lemma for_users_effect now post_reply replies keys :
  forall st changed,
  let '(st1, changed1, flow1) := for_users now post_reply replies keys st changed in
  map fst (pcr_cache st1) = map fst (pcr_cache st) /\
  watch_event st1 = watch_event st /\
  (changed = true -> changed1 = true) /\
  ((changed1 = changed /\ queue (workwx st1) = queue (workwx st) /\
    posts (trace (workwx st1)) = posts (trace (workwx st)))
   \/ changed1 = true
   \/ (changed1 = changed /\ queue (workwx st1) = [])) /\
  (forall e, flow1 = ForRaise e -> queue (workwx st1) = [] \/ is_exception e = false) /\
  ((user_query_error_count st < 3)%nat -> (user_notify_error_count st < 3)%nat ->
   (user_query_error_count st1 <= 3)%nat /\ (user_notify_error_count st1 <= 3)%nat /\
   ((forall e, flow1 <> ForRaise e) -> (user_query_error_count st1 < 3)%nat)).
Proof.
  induction keys as [|k keys IH]; intros st changed; cbn [for_users].
  - repeat split; auto; try lia; try discriminate.
  - pose proof (watch_user_effect now post_reply (replies k) k st changed) as Hw.
    destruct (watch_user now post_reply (replies k) k st changed) as [[st1 c1] f1].
    destruct Hw as (Hk1 & He1 & Hm1 & Hq1 & Hr1 & Hc1).
    destruct f1 as [| |e1].
    + specialize (IH st1 c1).
      destruct (for_users now post_reply replies keys st1 c1) as [[st2 c2] f2].
      destruct IH as (Hk2 & He2 & Hm2 & Hq2 & Hr2 & Hc2).
      split; [congruence|]. split; [congruence|]. split; [auto|]. split; [|split].
      * destruct Hq1 as [(-> & Hqa & Hpa)|[->|(_ & Hbreak & _)]].
        -- destruct Hq2 as [(-> & Hqb & Hpb)|[->|(-> & Hqb)]].
           ++ left. repeat split; congruence.
           ++ right; left; reflexivity.
           ++ right; right. split; [reflexivity|exact Hqb].
        -- right; left. apply Hm2. reflexivity.
        -- contradiction Hbreak. reflexivity.
      * exact Hr2.
      * intros Ha Hb. destruct (Hc1 Ha Hb) as (_ & _ & Hn & _).
        destruct (Hn eq_refl) as [Ha1 Hb1]. exact (Hc2 Ha1 Hb1).
    + split; [exact Hk1|]. split; [exact He1|]. split; [exact Hm1|]. split; [|split].
      * destruct Hq1 as [H|[H|(H1 & _ & H2)]]; [left; exact H|right; left; exact H|].
        right; right. split; assumption.
      * intros e Hf. discriminate Hf.
      * intros Ha Hb. destruct (Hc1 Ha Hb) as (Hc & Hn & _ & Hbr).
        split; [exact Hc|]. split; [exact Hn|]. intros _. exact (Hbr eq_refl).
    + split; [exact Hk1|]. split; [exact He1|]. split; [exact Hm1|]. split; [|split].
      * destruct Hq1 as [H|[H|(H1 & _ & H2)]]; [left; exact H|right; left; exact H|].
        right; right. split; assumption.
      * exact Hr1.
      * intros Ha Hb. destruct (Hc1 Ha Hb) as (Hc & Hn & _ & _).
        split; [exact Hc|]. split; [exact Hn|]. intros Hne.
        contradiction (Hne e1 eq_refl).
Qed.

(** The same for a whole cycle. *)
Lemma watch_cycle_effect now post_reply replies st :
  let '(st1, r) := watch_cycle now post_reply replies st in
  map fst (pcr_cache st1) = map fst (pcr_cache st) /\
  watch_event st1 = watch_event st /\
  (queue (workwx st1) = [] \/
   (queue (workwx st1) = queue (workwx st) /\
    posts (trace (workwx st1)) = posts (trace (workwx st))) \/
   (exists e, r = Some e /\ is_exception e = false)) /\
  ((user_query_error_count st < 3)%nat -> (user_notify_error_count st < 3)%nat ->
   (user_query_error_count st1 <= 3)%nat /\ (user_notify_error_count st1 <= 3)%nat /\
   (r = None -> (user_query_error_count st1 < 3)%nat)).
Proof.
  rewrite watch_cycle_eq.
  pose proof (for_users_effect now post_reply replies (map fst (pcr_cache st)) st false)
    as Hf.
  destruct (for_users now post_reply replies (map fst (pcr_cache st)) st false)
    as [[st1 c1] f1].
  destruct Hf as (Hk & He & _ & Hq & Hr & Hc).
  assert (Hend : forall f, (forall e, f <> ForRaise e) -> f1 = f ->
            let '(st2, r) := end_cycle now post_reply st1 c1 in
            map fst (pcr_cache st2) = map fst (pcr_cache st) /\
            watch_event st2 = watch_event st /\
            (queue (workwx st2) = [] \/
             (queue (workwx st2) = queue (workwx st) /\
              posts (trace (workwx st2)) = posts (trace (workwx st))) \/
             (exists e, r = Some e /\ is_exception e = false)) /\
            ((user_query_error_count st < 3)%nat ->
             (user_notify_error_count st < 3)%nat ->
             (user_query_error_count st2 <= 3)%nat /\
             (user_notify_error_count st2 <= 3)%nat /\
             (r = None -> (user_query_error_count st2 < 3)%nat))).
  { intros f Hnr ->.
    destruct (end_cycle_counts now post_reply st1 c1) as (Hn' & Hq' & He' & Hc').
    assert (Hqueue : queue (workwx (fst (end_cycle now post_reply st1 c1))) = [] \/
                     (queue (workwx (fst (end_cycle now post_reply st1 c1)))
                      = queue (workwx st) /\
                      posts (trace (workwx (fst (end_cycle now post_reply st1 c1))))
                      = posts (trace (workwx st)))).
    { unfold end_cycle. destruct c1.
      - left. rewrite in_workwx_eq, send_message_result.
        destruct (post_reply (clock (workwx st1)));
          cbn [fst with_workwx workwx sleep emit queue];
          rewrite send_message_world; reflexivity.
      - cbn [fst with_workwx workwx sleep emit queue trace].
        rewrite posts_app, app_nil_r.
        destruct Hq as [(_ & Ha & Hb)|[H|(_ & H)]];
          [right; split; assumption|discriminate H|left; exact H]. }
    destruct (end_cycle now post_reply st1 c1) as [st2 r]. cbn [fst] in *.
    rewrite Hc', He', Hn', Hq'.
    split; [exact Hk|]. split; [exact He|]. split.
    - destruct Hqueue as [H|H]; [left; exact H|right; left; exact H].
    - intros Ha Hb. destruct (Hc Ha Hb) as (H1 & H2 & H3).
      split; [exact H1|]. split; [exact H2|]. intros _. apply H3. intros e. apply Hnr. }
  destruct f1 as [| |e].
  - apply (Hend ForNext); [discriminate|reflexivity].
  - apply (Hend ForBreak); [discriminate|reflexivity].
  - split; [exact Hk|]. split; [exact He|]. split.
    + destruct (Hr e eq_refl) as [H|H]; [left; exact H|].
      right; right. exists e. split; [reflexivity|exact H].
    + intros Ha Hb. destruct (Hc Ha Hb) as (H1 & H2 & _).
      split; [exact H1|]. split; [exact H2|]. intros H; discriminate H.
Qed.

Lemma signalled_fields stop st :
  pcr_cache (signalled stop st) = pcr_cache st /\
  user_query_error_count (signalled stop st) = user_query_error_count st /\
  user_notify_error_count (signalled stop st) = user_notify_error_count st /\
  workwx (signalled stop st) = workwx st /\
  (watch_event st = true -> watch_event (signalled stop st) = true).
Proof. destruct stop; repeat split; auto. Qed.

(** X3.  The watched ids are fixed: no step of the watch loop (a stop, a
    signal, a login that raises or returns, a polling cycle that ends or is
    left by an exception, the way back to the login) adds, removes or
    reorders a key of the rank cache. *)
Theorem watched_ids_are_fixed (now : nat -> string) (post_reply : nat -> option exn)
  (should_login : nat -> bool) (sdk_login : nat -> M unit)
  (m m' : phase * watcher) :
  watch_step now post_reply should_login sdk_login m m' ->
  map fst (pcr_cache (snd m')) = map fst (pcr_cache (snd m)).
Proof.
  intros H.
  destruct H as [st|st|st fuel k w' stop|st fuel k w' w'' e text
                |st fuel k w' w'' e e' text|st fuel k w' w'' e e' text|st fuel k w' e
                |st st' replies stop Hc Hw|st st' replies e Hc Hw
                |st st' replies e Hc Hw|st];
    cbn [snd with_workwx with_counts watch_stop pcr_cache]; try reflexivity.
  - rewrite (proj1 (signalled_fields stop _)). reflexivity.
  - rewrite (proj1 (signalled_fields stop _)).
    pose proof (watch_cycle_effect now post_reply replies st) as He.
    rewrite Hw in He. exact (proj1 He).
  - pose proof (watch_cycle_effect now post_reply replies st) as He.
    rewrite Hw in He. exact (proj1 He).
  - pose proof (watch_cycle_effect now post_reply replies st) as He.
    rewrite Hw in He. exact (proj1 He).
Qed.

Lemma watched_ids_are_fixed_witness :
  watch_step fixed_now webhook_up login_once sdk_accepts (Polling, two_users)
    (Polling, fst (watch_cycle fixed_now webhook_up only_second_fails two_users)) /\
  map fst (pcr_cache (fst (watch_cycle fixed_now webhook_up only_second_fails two_users)))
  = [1; 2].
Proof.
  assert (H : watch_step fixed_now webhook_up login_once sdk_accepts (Polling, two_users)
                (Polling,
                 fst (watch_cycle fixed_now webhook_up only_second_fails two_users))).
  { exact (StepCycle fixed_now webhook_up login_once sdk_accepts two_users _
             only_second_fails false eq_refl eq_refl). }
  split; [exact H|].
  exact (watched_ids_are_fixed fixed_now webhook_up login_once sdk_accepts _ _ H).
Defined.

(** X4.  The error counters stay within their bounds.  From a state in which
    fewer than 3 query errors are counted and at most 3 reported ones (as after
    a login, where both are 0), whenever the polling loop ends, at most 3 of
    each are counted.  When it ends by its condition, fewer than 3 query
    errors are counted, and it has ended for one of the two reasons of the
    condition: the stop event is set, or exactly 3 errors were reported.  The
    other end is the exception that left a pass. *)
Theorem error_counters_stay_bounded (now : nat -> string)
  (post_reply : nat -> option exn) (fuel : nat)
  (replies : nat -> Z -> query_reply) (signals : nat -> bool) (n : nat)
  (st st' : watcher) (r : option exn) :
  (user_query_error_count st < 3)%nat ->
  (user_notify_error_count st <= 3)%nat ->
  polling now post_reply fuel replies signals n st = Some (st', r) ->
  (user_query_error_count st' <= 3)%nat /\
  (user_notify_error_count st' <= 3)%nat /\
  (r = None ->
   (user_query_error_count st' < 3)%nat /\
   (watch_event st' = true \/ user_notify_error_count st' = 3%nat)).
Proof.
  revert n st.
  assert (Hend : forall st, (user_query_error_count st < 3)%nat ->
            (user_notify_error_count st <= 3)%nat ->
            polling_cond st = false ->
            (user_query_error_count st <= 3)%nat /\
            (user_notify_error_count st <= 3)%nat /\
            (@None exn = None ->
             (user_query_error_count st < 3)%nat /\
             (watch_event st = true \/ user_notify_error_count st = 3%nat))).
  { intros st Hq Hn Hc. split; [lia|]. split; [exact Hn|]. intros _. split; [exact Hq|].
    unfold polling_cond in Hc. apply andb_false_iff in Hc as [Hc|Hc].
    - left. now apply negb_false_iff in Hc.
    - right. apply Nat.ltb_ge in Hc. lia. }
  induction fuel as [|fuel IH]; intros n st Hq Hn Hp; cbn [polling] in Hp.
  - destruct (polling_cond st) eqn:Hc; [discriminate Hp|].
    injection Hp as <- <-. exact (Hend st Hq Hn Hc).
  - destruct (polling_cond st) eqn:Hc.
    + pose proof Hc as Hc'. unfold polling_cond in Hc'.
      apply andb_true_iff in Hc' as [_ Hc']. apply Nat.ltb_lt in Hc'.
      pose proof (watch_cycle_effect now post_reply (replies n) st) as He.
      destruct (watch_cycle now post_reply (replies n) st) as [st1 r1].
      destruct He as (_ & _ & _ & Hb). destruct (Hb Hq Hc') as (Hq1 & Hn1 & Hlt).
      destruct (signalled_fields (signals n) st1) as (_ & Sq & Sn & _ & _).
      destruct r1 as [e|].
      * injection Hp as <- <-. rewrite Sq, Sn.
        split; [exact Hq1|]. split; [exact Hn1|]. intros H; discriminate H.
      * apply (IH (S n) (signalled (signals n) st1)); [rewrite Sq; auto|rewrite Sn; auto|].
        exact Hp.
    + injection Hp as <- <-. exact (Hend st Hq Hn Hc).
Qed.

Lemma error_counters_stay_bounded_witness :
  (user_query_error_count two_users < 3)%nat /\
  (user_notify_error_count two_users <= 3)%nat /\
  exists st',
    polling fixed_now webhook_up 10 (fun _ => all_timeout) no_signal 0 two_users
      = Some (st', None) /\
    (user_query_error_count st' < 3)%nat.
Proof.
  assert (Hq : (user_query_error_count two_users < 3)%nat) by (simpl; lia).
  assert (Hn : (user_notify_error_count two_users <= 3)%nat) by (simpl; lia).
  split; [exact Hq|]. split; [exact Hn|].
  eexists. split; [vm_compute; reflexivity|].
  refine (proj1 (proj2 (proj2 (error_counters_stay_bounded fixed_now webhook_up 10
                                  (fun _ => all_timeout) no_signal 0
                                  two_users _ None Hq Hn _)) eq_refl)).
  vm_compute. reflexivity.
Defined.

(** X5.  The stop event is final.  No polling cycle clears it; once it is
    set, the polling loop ends without a query, the only step left from the
    polling state is the last sleep of 3 seconds on the way to the top of the
    outer loop, the only step from there is the stop, and nothing follows the
    stop: no login and no query is made any more. *)
Theorem stop_event_is_final (now : nat -> string) (post_reply : nat -> option exn)
  (should_login : nat -> bool) (sdk_login : nat -> M unit) (st : watcher) :
  watch_event st = true ->
  (forall replies, watch_event (fst (watch_cycle now post_reply replies st)) = true) /\
  (forall fuel replies signals n,
     polling now post_reply fuel replies signals n st = Some (st, None)) /\
  (forall m, watch_step now post_reply should_login sdk_login (Polling, st) m ->
             m = (LoggingIn, with_workwx (sleep 3) st)) /\
  (forall m, watch_step now post_reply should_login sdk_login
               (LoggingIn, with_workwx (sleep 3) st) m ->
             m = (Stopped, with_workwx (sleep 3) st)) /\
  (forall st0 m, ~ watch_step now post_reply should_login sdk_login (Stopped, st0) m) /\
  watch_event (watch_stop st) = true.
Proof.
  intros He.
  assert (Hc : polling_cond st = false) by (unfold polling_cond; rewrite He; reflexivity).
  split; [|split; [|split; [|split; [|split]]]].
  - intros replies.
    pose proof (watch_cycle_effect now post_reply replies st) as H.
    destruct (watch_cycle now post_reply replies st) as [st1 r].
    cbn [fst]. rewrite (proj1 (proj2 H)). exact He.
  - intros fuel replies signals n. destruct fuel; cbn [polling]; rewrite Hc; reflexivity.
  - intros m Hm. inversion Hm; subst; first [reflexivity|congruence].
  - intros m Hm. inversion Hm; subst; try reflexivity;
      match goal with
      | H : watch_event (with_workwx _ _) = false |- _ =>
          cbn [with_workwx watch_event] in H; congruence
      end.
  - intros st0 m Hm. inversion Hm.
  - reflexivity.
Qed.

Lemma stop_event_is_final_witness :
  watch_event (watch_stop two_users) = true /\
  polling fixed_now webhook_up 5 (fun _ => all_timeout) no_signal 0 (watch_stop two_users)
    = Some (watch_stop two_users, None).
Proof.
  split; [reflexivity|].
  exact (proj1 (proj2 (stop_event_is_final fixed_now webhook_up login_once sdk_accepts
                         (watch_stop two_users) eq_refl))
           5%nat (fun _ => all_timeout) no_signal 0%nat).
Defined.

(** X6.  No change message stays buffered across a cycle, unless the cycle is
    interrupted.  After a polling cycle the queue is empty, or nothing at all
    was delivered and the queue is what it was before the cycle, or the cycle
    was left by an interruption (an error that is no [Exception]).  So with
    an empty queue at its start, the polling loop ends with an empty queue
    whenever it ends otherwise than by an interruption. *)
Theorem nothing_stays_buffered (now : nat -> string) (post_reply : nat -> option exn)
  (replies : Z -> query_reply) (st : watcher) :
  (queue (workwx (fst (watch_cycle now post_reply replies st))) = [] \/
   (queue (workwx (fst (watch_cycle now post_reply replies st))) = queue (workwx st) /\
    posts (trace (workwx (fst (watch_cycle now post_reply replies st))))
    = posts (trace (workwx st))) \/
   (exists e, snd (watch_cycle now post_reply replies st) = Some e /\
              is_exception e = false)) /\
  (forall fuel cycles signals n st' r,
     queue (workwx st) = [] ->
     polling now post_reply fuel cycles signals n st = Some (st', r) ->
     queue (workwx st') = [] \/ (exists e, r = Some e /\ is_exception e = false)).
Proof.
  split.
  - pose proof (watch_cycle_effect now post_reply replies st) as H.
    destruct (watch_cycle now post_reply replies st) as [st1 r].
    exact (proj1 (proj2 (proj2 H))).
  - intros fuel. revert st.
    induction fuel as [|fuel IH]; intros st cycles signals n st' r Hq Hp;
      cbn [polling] in Hp; destruct (polling_cond st).
    + discriminate Hp.
    + injection Hp as <- <-. left. exact Hq.
    + pose proof (watch_cycle_effect now post_reply (cycles n) st) as H.
      destruct (watch_cycle now post_reply (cycles n) st) as [st1 r1].
      destruct H as (_ & _ & Hqueue & _).
      destruct (signalled_fields (signals n) st1) as (_ & _ & _ & Sw & _).
      destruct r1 as [e|].
      * injection Hp as <- <-. rewrite Sw.
        destruct Hqueue as [H|[[H _]|(e0 & H0 & H1)]].
        -- left. exact H.
        -- left. congruence.
        -- right. exists e0. split; assumption.
      * apply (IH (signalled (signals n) st1) cycles signals (S n) st' r); [|exact Hp].
        rewrite Sw. destruct Hqueue as [H|[[H _]|(e0 & H0 & _)]];
          [exact H|congruence|discriminate H0].
    + injection Hp as <- <-. left. exact Hq.
Qed.

Lemma nothing_stays_buffered_witness :
  queue (workwx two_users) = [] /\
  exists st',
    polling fixed_now webhook_up 10 (fun _ => all_timeout) no_signal 0 two_users
      = Some (st', None) /\
    queue (workwx st') = [].
Proof.
  split; [reflexivity|].
  eexists. split; [vm_compute; reflexivity|].
  destruct (proj2 (nothing_stays_buffered fixed_now webhook_up all_timeout two_users)
              10%nat (fun _ => all_timeout) no_signal 0%nat _ None eq_refl
              ltac:(vm_compute; reflexivity)) as [H|(e & H & _)];
    [exact H|discriminate H].
Defined.

(** ** Bounds of the verification solver *)

Lemma send_message_total_sleep now post_reply message delay w :
  total_sleep (trace (snd (send_message now post_reply message delay w)))
  = total_sleep (trace w).
Proof. unfold total_sleep. now rewrite send_message_sleeps. Qed.

#[local] Hint Rewrite send_message_total_sleep total_sleep_app : world_trace.

Lemma sleeps_within_app bound a b :
  sleeps_within bound a -> sleeps_within bound b -> sleeps_within bound (a ++ b)%list.
Proof.
  unfold sleeps_within. intros Ha Hb. rewrite sleeps_app. apply Forall_app. now split.
Qed.

Lemma send_message_sleeps_within bound now post_reply message delay w :
  sleeps_within bound (trace w) ->
  sleeps_within bound (trace (snd (send_message now post_reply message delay w))).
Proof. unfold sleeps_within. now rewrite send_message_sleeps. Qed.

Ltac world_facts :=
  repeat first
    [ apply send_message_sleeps_within
    | rewrite trace_sleep | rewrite trace_emit
    | apply sleeps_within_app; [|unfold sleeps_within; cbn [sleeps]; repeat constructor; lia] ];
  try assumption.

Ltac trace_facts :=
  unfold sleep, emit; cbn [fst snd trace queue clock];
  split; [rewrite ?checks_app; cbn [checks]; lia|];
  split; [rewrite ?submits_app; cbn [submits]; lia|];
  split; [rewrite ?total_sleep_app; unfold total_sleep; cbn [sleeps fold_right]; lia|];
  split; [intros ?;
          repeat (apply sleeps_within_app;
                  [|unfold sleeps_within; cbn [sleeps]; repeat constructor; lia]);
          assumption|].

(** One status poll, whatever it is answered: one request, no submission, at
    most 30 seconds of sleep; and a token only behind the pending success
    notice. *)
Lemma check_once_effect now post_reply int_of_str check_reply wake uuid v q w :
  let r := check_once now post_reply int_of_str check_reply wake uuid v q w in
  checks (trace (snd r)) = S (checks (trace w)) /\
  submits (trace (snd r)) = submits (trace w) /\
  total_sleep (trace (snd r)) <= total_sleep (trace w) + 30 /\
  (sleeps_within 30 (trace w) -> sleeps_within 30 (trace (snd r))) /\
  (forall t, fst r = Ok (CheckReturn t) ->
             snd r = snd (send_message now post_reply "登录验证：自动过码成功" true
                            (emit (EvCheck uuid) w))).
Proof.
  cbv zeta. unfold check_once, bind, lift, try, ret, raise, asyncio_sleep.
  destruct (check_reply v q) as [e|query_data]; cbn [fst snd].
  - trace_facts. intros t H; discriminate H.
  - repeat match goal with
      | |- context [send_message ?a ?b ?c true ?d] =>
          rewrite (send_message_delay a b c d)
      | |- context [send_message ?a ?b ?c false ?d] =>
          rewrite (send_message_flush a b c d)
      | |- context [match ?x with _ => _ end] =>
          destruct x eqn:?; cbn [fst snd]
      end;
    trace_facts; intros t0 H; first [discriminate H | reflexivity].
Qed.

Ltac bounded_by tac :=
  split; [lia|]; split; [lia|]; split; [lia|]; split; [tac|].

(** The inner loop with [todo] passes left. *)
Lemma check_loop_effect now post_reply int_of_str check_reply wake uuid v :
  forall todo q w,
  let r := check_loop now post_reply int_of_str check_reply wake todo uuid v q w in
  (checks (trace (snd r)) <= checks (trace w) + todo)%nat /\
  submits (trace (snd r)) = submits (trace w) /\
  total_sleep (trace (snd r)) <= total_sleep (trace w) + 30 * Z.of_nat todo /\
  (sleeps_within 30 (trace w) -> sleeps_within 30 (trace (snd r))) /\
  (forall t, fst r = Ok (Some t) ->
     exists w0, snd r = snd (send_message now post_reply "登录验证：自动过码成功" true w0)).
Proof.
  cbv zeta. induction todo as [|todo IH]; intros q w.
  - cbn [check_loop ret fst snd]. bounded_by auto. intros t H; discriminate H.
  - rewrite check_loop_step.
    pose proof (check_once_effect now post_reply int_of_str check_reply wake uuid v (S q) w)
      as Hc. cbv zeta in Hc.
    destruct (check_once now post_reply int_of_str check_reply wake uuid v (S q) w)
      as [[[| |t]|e] w1];
      cbn [fst snd] in *; destruct Hc as (Hc1 & Hc2 & Hc3 & Hc4 & Hc5).
    + destruct (IH (S q) w1) as (H1 & H2 & H3 & H4 & H5).
      bounded_by auto. exact H5.
    + bounded_by auto. intros t H; discriminate H.
    + bounded_by auto. intros t0 H. eexists. exact (Hc5 t eq_refl).
    + bounded_by auto. intros t H; discriminate H.
Qed.

(** The outer loop with [todo] attempts left. *)
Lemma verify_loop_effect now post_reply int_of_str submit_reply check_reply wake url :
  forall todo v w,
  let r :=
    verify_loop now post_reply int_of_str submit_reply check_reply wake todo url v w in
  (submits (trace (snd r)) <= submits (trace w) + todo)%nat /\
  (checks (trace (snd r)) <= checks (trace w) + 10 * todo)%nat /\
  total_sleep (trace (snd r)) <= total_sleep (trace w) + 300 * Z.of_nat todo /\
  (sleeps_within 30 (trace w) -> sleeps_within 30 (trace (snd r))) /\
  (forall t, fst r = Ok (Some t) ->
     exists w0, snd r = snd (send_message now post_reply "登录验证：自动过码成功" true w0)).
Proof.
  cbv zeta. induction todo as [|todo IH]; intros v w.
  - rewrite verify_loop_end. cbn [fst snd].
    autorewrite with world_trace.
    bounded_by ltac:(intros H; world_facts).
    intros t H. destruct (post_reply (clock w)); discriminate H.
  - rewrite verify_loop_unfold. cbv zeta.
    set (w1 := emit (EvSubmit url) (snd (send_message now post_reply _ true w))).
    assert (Hw1 : submits (trace w1) = S (submits (trace w)) /\
                  checks (trace w1) = checks (trace w) /\
                  total_sleep (trace w1) = total_sleep (trace w) /\
                  (sleeps_within 30 (trace w) -> sleeps_within 30 (trace w1))).
    { subst w1. autorewrite with world_trace.
      cbn [submits checks total_sleep sleeps fold_right].
      split; [lia|]. split; [lia|]. split; [lia|]. intros H; world_facts. }
    destruct Hw1 as (Hs1 & Hk1 & Ht1 & Hb1).
    destruct (submit_reply (S v)) as [e|verify_data].
    + cbn [fst snd]. bounded_by auto. intros t H; discriminate H.
    + destruct (py_getitem verify_data "uuid") as [uuid|e].
      * pose proof (check_loop_effect now post_reply int_of_str check_reply wake uuid (S v)
                      10 0%nat w1) as Hl. cbv zeta in Hl.
        destruct (check_loop now post_reply int_of_str check_reply wake 10 uuid (S v) 0 w1)
          as [[[t|]|e] w2];
          cbn [fst snd] in Hl; destruct Hl as (Hl1 & Hl2 & Hl3 & Hl4 & Hl5).
        -- cbn [fst snd]. bounded_by auto.
           intros t0 H. exact (Hl5 t eq_refl).
        -- destruct (IH (S v) w2) as (H1 & H2 & H3 & H4 & H5).
           bounded_by auto. exact H5.
        -- cbn [fst snd]. bounded_by auto. intros t H; discriminate H.
      * cbn [fst snd]. bounded_by auto. intros t H; discriminate H.
Qed.

(** X7.  The solver is bounded, whatever the service and the webhook answer:
    it makes at most 3 submissions and at most 30 status polls, no single sleep
    it asks for is longer than 30 seconds, and it sleeps at most 900 seconds in
    all. *)
Theorem solver_is_bounded (now : nat -> string) (post_reply : nat -> option exn)
  (int_of_str : string -> option Z) (submit_reply : nat -> http_reply)
  (check_reply : nat -> nat -> http_reply)
  (wake : nat -> nat -> option exn) (gt challenge userid : string) (w : world) :
  let w' :=
    snd (_verify_captcha now post_reply int_of_str submit_reply check_reply wake
           gt challenge userid w) in
  (submits (trace w') <= submits (trace w) + 3)%nat /\
  (checks (trace w') <= checks (trace w) + 30)%nat /\
  total_sleep (trace w') <= total_sleep (trace w) + 900 /\
  (sleeps_within 30 (trace w) -> sleeps_within 30 (trace w')).
Proof.
  unfold _verify_captcha. cbv zeta.
  match goal with
  | |- context [verify_loop now post_reply int_of_str submit_reply check_reply wake 3 ?url 0 w] =>
      destruct (verify_loop_effect now post_reply int_of_str submit_reply check_reply wake
                  url 3 0%nat w) as (H1 & H2 & H3 & H4 & _)
  end.
  repeat split; try lia; auto.
Qed.

(** X8.  When the solver returns a token, its last action was to put the
    success notice on the queue: the notice is pending, not delivered, and
    nothing was requested or sent after it. *)
Theorem token_leaves_success_pending (now : nat -> string)
  (post_reply : nat -> option exn) (int_of_str : string -> option Z)
  (submit_reply : nat -> http_reply) (check_reply : nat -> nat -> http_reply)
  (wake : nat -> nat -> option exn)
  (gt challenge userid : string) (w w' : world) (t : token) :
  _verify_captcha now post_reply int_of_str submit_reply check_reply wake
    gt challenge userid w = (Ok (Some t), w') ->
  exists w0,
    w' = snd (send_message now post_reply "登录验证：自动过码成功" true w0) /\
    queue w' = (queue w0 ++ [stamp now (clock w0) "登录验证：自动过码成功"])%list /\
    trace w' = (trace w0 ++ [EvPut (stamp now (clock w0) "登录验证：自动过码成功")])%list /\
    posts (trace w') = posts (trace w0).
Proof.
  unfold _verify_captcha. intros H.
  match type of H with
  | verify_loop now post_reply int_of_str submit_reply check_reply wake 3 ?url 0 w = _ =>
      destruct (verify_loop_effect now post_reply int_of_str submit_reply check_reply wake
                  url 3 0%nat w) as (_ & _ & _ & _ & H5)
  end.
  rewrite H in H5. cbn [fst snd] in H5. destruct (H5 t eq_refl) as (w0 & ->).
  exists w0. rewrite send_message_delay. cbn [snd queue trace].
  rewrite posts_app, app_nil_r. repeat split.
Qed.

Lemma token_leaves_success_pending_witness :
  exists w',
    _verify_captcha fixed_now webhook_up decimal_int submit_X scenario_checks no_interruption
      "gt" "challenge" "userid" (mkWorld [] [] 0)
    = (Ok (Some (JStr "c", JStr "g", JStr "v")), w') /\
    exists w0, w' = snd (send_message fixed_now webhook_up "登录验证：自动过码成功" true w0).
Proof.
  eexists. split; [vm_compute; reflexivity|].
  match goal with
  | |- exists w0, ?W = _ =>
      destruct (token_leaves_success_pending fixed_now webhook_up decimal_int submit_X
                  scenario_checks no_interruption "gt" "challenge" "userid" (mkWorld [] [] 0) W
                  (JStr "c", JStr "g", JStr "v")) as (w0 & H & _);
        [vm_compute; reflexivity|exists w0; exact H]
  end.
Defined.

(** ** Errors and idle polls of the verification solver *)

(** X9.  A submission that fails ends the solver at once with that error:
    when the first submission raises, or its answer has no usable [uuid] (a
    missing key raises [KeyError "uuid"]), the solver raises the same error
    after that one request, with no status poll made, nothing delivered and the
    notice of the first attempt left pending. *)
Theorem failed_submission_ends_solver (now : nat -> string)
  (post_reply : nat -> option exn) (int_of_str : string -> option Z)
  (submit_reply : nat -> http_reply) (check_reply : nat -> nat -> http_reply)
  (wake : nat -> nat -> option exn)
  (gt challenge userid : string) (e : exn) (w : world) :
  match submit_reply 1%nat with
  | HttpRaises e' => e' = e
  | HttpJson verify_data => py_getitem verify_data "uuid" = Raise e
  end ->
  let '(r, w') :=
    _verify_captcha now post_reply int_of_str submit_reply check_reply wake
      gt challenge userid w in
  r = Raise e /\
  submits (trace w') = S (submits (trace w)) /\
  checks (trace w') = checks (trace w) /\
  posts (trace w') = posts (trace w) /\
  queue w' = (queue w ++ [stamp now (clock w) "PCR登录验证：自动过码第1次尝试"])%list /\
  (forall members, dict_lookup "uuid" members = None ->
                   py_getitem (JObj members) "uuid" = Raise (KeyError "uuid")).
Proof.
  intros H. unfold _verify_captcha. rewrite verify_loop_unfold. cbv zeta.
  assert (Hend : forall w1 : world,
            w1 = emit (EvSubmit
                         ("https://pcrd.tencentbot.top/geetest_renew?captcha_type=1"
                          ++ "&challenge=" ++ challenge ++ "&gt=" ++ gt ++ "&userid="
                          ++ userid ++ "&gs=1"))
                   (snd (send_message now post_reply
                           ("PCR登录验证：自动过码第" ++ str_of_Z (Z.of_nat 1) ++ "次尝试")
                           true w)) ->
            submits (trace w1) = S (submits (trace w)) /\
            checks (trace w1) = checks (trace w) /\
            posts (trace w1) = posts (trace w) /\
            queue w1 = (queue w ++ [stamp now (clock w) "PCR登录验证：自动过码第1次尝试"])%list /\
            (forall members, dict_lookup "uuid" members = None ->
                             py_getitem (JObj members) "uuid" = Raise (KeyError "uuid"))).
  { intros w1 ->. rewrite send_message_delay. unfold emit. cbn [snd trace queue clock].
    rewrite !submits_app, !checks_app, !posts_app. cbn [submits checks posts].
    rewrite !app_nil_r. repeat split; try lia.
    intros members Hm. cbn [py_getitem]. rewrite Hm. reflexivity. }
  destruct (submit_reply 1%nat) as [e'|verify_data].
  - subst e'. split; [reflexivity|]. apply Hend. reflexivity.
  - rewrite H. split; [reflexivity|]. apply Hend. reflexivity.
Qed.

Lemma failed_submission_ends_solver_witness :
  py_getitem (JObj [("error", JStr "busy")]) "uuid" = Raise (KeyError "uuid") /\
  fst (_verify_captcha fixed_now webhook_up decimal_int
         (fun _ => HttpJson (JObj [("error", JStr "busy")]))
         always_fail no_interruption "gt" "challenge" "userid" (mkWorld [] [] 0))
    = Raise (KeyError "uuid").
Proof.
  split; [reflexivity|].
  pose proof (failed_submission_ends_solver fixed_now webhook_up decimal_int
                (fun _ => HttpJson (JObj [("error", JStr "busy")])) always_fail
                no_interruption "gt" "challenge" "userid" (KeyError "uuid") (mkWorld [] [] 0)
                eq_refl) as H.
  destruct (_verify_captcha fixed_now webhook_up decimal_int _ always_fail
              no_interruption "gt" "challenge" "userid" (mkWorld [] [] 0)) as [r w'].
  exact (proj1 H).
Defined.

(** A status poll that carries neither a position nor a progress. *)
Lemma check_once_idle now post_reply int_of_str check_reply wake uuid v q query_data x y w :
  check_reply v q = HttpJson query_data ->
  py_get query_data "queue_num" = Ok x -> truthy x = false ->
  py_get query_data "info" = Ok y -> truthy y = false ->
  check_once now post_reply int_of_str check_reply wake uuid v q w
  = (Ok CheckAgain, emit (EvCheck uuid) w).
Proof.
  intros Hr Hx Htx Hy Hty. unfold check_once, bind, lift, try, ret.
  rewrite Hr, Hx, Htx, Hy, Hty. reflexivity.
Qed.

(** X10.  Polls that carry neither a queue position nor a progress are not
    paced: when every submission is given a uuid and every status poll is
    answered that way, the solver makes its 3 submissions and all of its 30
    polls with no sleep at all between them and posts only the timeout notice;
    it returns no token when that POST returns, and raises its error
    otherwise. *)
Theorem idle_polls_are_not_paced (now : nat -> string)
  (post_reply : nat -> option exn) (int_of_str : string -> option Z)
  (submit_reply : nat -> http_reply) (check_reply : nat -> nat -> http_reply)
  (wake : nat -> nat -> option exn)
  (gt challenge userid : string) (w : world) :
  (forall v, exists verify_data uuid,
      submit_reply v = HttpJson verify_data /\
      py_getitem verify_data "uuid" = Ok uuid) ->
  (forall v q, exists query_data x y,
      check_reply v q = HttpJson query_data /\
      py_get query_data "queue_num" = Ok x /\ truthy x = false /\
      py_get query_data "info" = Ok y /\ truthy y = false) ->
  let '(r, w') :=
    _verify_captcha now post_reply int_of_str submit_reply check_reply wake
      gt challenge userid w in
  r = match post_reply (clock w + 3)%nat with None => Ok None | Some e => Raise e end /\
  submits (trace w') = (submits (trace w) + 3)%nat /\
  checks (trace w') = (checks (trace w) + 30)%nat /\
  sleeps (trace w') = sleeps (trace w) /\
  List.length (posts (trace w')) = S (List.length (posts (trace w))).
Proof.
  intros Hsub Hidle. unfold _verify_captcha.
  set (url := _ ++ _).
  assert (Hinner : forall uuid v todo q w0,
            exists w1,
              check_loop now post_reply int_of_str check_reply wake todo uuid v q w0
              = (Ok None, w1) /\
              clock w1 = clock w0 /\
              submits (trace w1) = submits (trace w0) /\
              checks (trace w1) = (checks (trace w0) + todo)%nat /\
              sleeps (trace w1) = sleeps (trace w0) /\
              posts (trace w1) = posts (trace w0)).
  { intros uuid v. induction todo as [|todo IH]; intros q w0.
    - exists w0. cbn [check_loop ret]. repeat split. lia.
    - destruct (Hidle v (S q)) as (d & x & y & Hr & Hx & Htx & Hy & Hty).
      rewrite check_loop_step,
        (check_once_idle now post_reply int_of_str check_reply wake uuid v (S q) d x y w0
           Hr Hx Htx Hy Hty).
      destruct (IH (S q) (emit (EvCheck uuid) w0)) as (w1 & Hl & H0 & H1 & H2 & H3 & H4).
      exists w1. split; [exact Hl|]. rewrite H0, H1, H2, H3, H4. unfold emit.
      cbn [trace clock].
      rewrite submits_app, checks_app, sleeps_app, posts_app.
      cbn [submits checks sleeps posts]. rewrite !app_nil_r. repeat split; lia. }
  assert (Houter : forall todo v w0,
            exists w1,
              verify_loop now post_reply int_of_str submit_reply check_reply wake todo url v w0
              = (match post_reply (clock w0 + todo)%nat with
                 | None => Ok None
                 | Some e => Raise e
                 end, w1) /\
              submits (trace w1) = (submits (trace w0) + todo)%nat /\
              checks (trace w1) = (checks (trace w0) + 10 * todo)%nat /\
              sleeps (trace w1) = sleeps (trace w0) /\
              List.length (posts (trace w1)) = S (List.length (posts (trace w0)))).
  { induction todo as [|todo IH]; intros v w0.
    - eexists. rewrite verify_loop_end, Nat.add_0_r. split; [reflexivity|].
      rewrite send_message_world. cbn [trace].
      rewrite submits_app, checks_app, sleeps_app, posts_app, length_app.
      cbn [submits checks sleeps posts List.length]. rewrite !app_nil_r.
      repeat split; lia.
    - destruct (Hsub (S v)) as (d & uuid & Hs & Hu).
      rewrite verify_loop_unfold, Hs, Hu. cbv zeta.
      match goal with
      | |- context [check_loop now post_reply int_of_str check_reply wake 10 uuid (S v) 0 ?w2] =>
          destruct (Hinner uuid (S v) 10%nat 0%nat w2)
            as (w3 & Hl & H0 & H1 & H2 & H3 & H4);
          rewrite Hl;
          assert (Hw2 : clock w2 = S (clock w0) /\
                        submits (trace w2) = S (submits (trace w0)) /\
                        checks (trace w2) = checks (trace w0) /\
                        sleeps (trace w2) = sleeps (trace w0) /\
                        posts (trace w2) = posts (trace w0))
      end.
      { rewrite send_message_delay. unfold emit. cbn [snd trace clock].
        rewrite !submits_app, !checks_app, !sleeps_app, !posts_app.
        cbn [submits checks sleeps posts]. rewrite !app_nil_r. repeat split; lia. }
      destruct Hw2 as (Hcl & Ha & Hb & Hc & Hd).
      destruct (IH (S v) w3) as (w1 & Hv & G1 & G2 & G3 & G4).
      exists w1. rewrite Hv, H0, Hcl.
      replace (S (clock w0) + todo)%nat with (clock w0 + S todo)%nat by lia.
      split; [reflexivity|].
      rewrite G1, G2, G3, G4, H1, H2, H3, H4, Ha, Hb, Hc, Hd. repeat split; lia. }
  destruct (Houter 3%nat 0%nat w) as (w1 & Hv & G1 & G2 & G3 & G4).
  rewrite Hv. repeat split; try assumption; lia.
Qed.

Lemma idle_polls_are_not_paced_witness :
  (forall v, exists verify_data uuid,
      submit_X v = HttpJson verify_data /\ py_getitem verify_data "uuid" = Ok uuid) /\
  checks (trace (snd (_verify_captcha fixed_now webhook_up decimal_int submit_X
                        (fun _ _ => HttpJson (JObj [("queue_num", JInt 0)]))
                        no_interruption "gt" "challenge" "userid" (mkWorld [] [] 0)))) = 30%nat.
Proof.
  assert (Hs : forall v, exists verify_data uuid,
             submit_X v = HttpJson verify_data /\
             py_getitem verify_data "uuid" = Ok uuid).
  { intros v. exists (JObj [("uuid", JStr "X")]), (JStr "X"). split; reflexivity. }
  split; [exact Hs|].
  pose proof (idle_polls_are_not_paced fixed_now webhook_up decimal_int submit_X
                (fun _ _ => HttpJson (JObj [("queue_num", JInt 0)]))
                no_interruption "gt" "challenge" "userid" (mkWorld [] [] 0) Hs
                (fun v q => ex_intro _ (JObj [("queue_num", JInt 0)])
                   (ex_intro _ (JInt 0)
                      (ex_intro _ JNull
                         (conj eq_refl (conj eq_refl (conj eq_refl
                            (conj eq_refl eq_refl)))))))) as H.
  destruct (_verify_captcha fixed_now webhook_up decimal_int submit_X _
              no_interruption "gt" "challenge" "userid" (mkWorld [] [] 0)) as [r w'].
  exact (proj1 (proj2 (proj2 H))).
Defined.

(** ** A token that lacks a part *)

(** X16.  A validated answer that lacks its [challenge] ends the solver with
    [KeyError "challenge"], and the success notice has been put on the queue
    all the same.  When the first poll of the first attempt carries no queue
    position and an [info] object that has the key [validate] but not the key
    [challenge], the solver raises after one submission and one poll, with
    nothing delivered and two notices pending: the one of the attempt and the
    one of the success. *)
Theorem incomplete_token_raises (now : nat -> string)
  (post_reply : nat -> option exn) (int_of_str : string -> option Z)
  (submit_reply : nat -> http_reply) (check_reply : nat -> nat -> http_reply)
  (wake : nat -> nat -> option exn)
  (gt challenge userid : string) (verify_data uuid query_data x : json)
  (members : list (string * json)) (w : world) :
  submit_reply 1%nat = HttpJson verify_data ->
  py_getitem verify_data "uuid" = Ok uuid ->
  check_reply 1%nat 1%nat = HttpJson query_data ->
  py_get query_data "queue_num" = Ok x ->
  truthy x = false ->
  py_get query_data "info" = Ok (JObj members) ->
  existsb (fun kv => String.eqb (fst kv) "validate") members = true ->
  dict_lookup "challenge" members = None ->
  let '(r, w') :=
    _verify_captcha now post_reply int_of_str submit_reply check_reply wake
      gt challenge userid w in
  r = Raise (KeyError "challenge") /\
  submits (trace w') = S (submits (trace w)) /\
  checks (trace w') = S (checks (trace w)) /\
  posts (trace w') = posts (trace w) /\
  queue w' = (queue w ++ [stamp now (clock w) "PCR登录验证：自动过码第1次尝试";
                          stamp now (S (clock w)) "登录验证：自动过码成功"])%list.
Proof.
  intros Hs Hu Hr Hq Hx Hi Hv Hc. unfold _verify_captcha.
  rewrite (verify_loop_step now post_reply int_of_str submit_reply check_reply wake
             2 _ 0 w verify_data uuid Hs Hu).
  rewrite check_loop_step.
  assert (Ht : truthy (JObj members) = true).
  { destruct members; [discriminate Hv|reflexivity]. }
  match goal with
  | |- context [check_once now post_reply int_of_str check_reply wake uuid 1 1 ?w1] =>
      assert (Ho : check_once now post_reply int_of_str check_reply wake uuid 1 1 w1
                   = (Raise (KeyError "challenge"),
                      snd (send_message now post_reply "登录验证：自动过码成功" true
                             (emit (EvCheck uuid) w1))))
  end.
  { unfold check_once, bind, lift, try, ret.
    rewrite Hr, Hq, Hx, Hi, Ht. cbn [existsb json_eq_str orb py_in py_getitem].
    rewrite Hv, Hc, send_message_delay. reflexivity. }
  rewrite Ho. rewrite !send_message_delay. unfold emit. cbn [snd trace queue clock].
  rewrite !submits_app, !checks_app, !posts_app. cbn [submits checks posts].
  rewrite !app_nil_r, <- !app_assoc. cbn [app].
  split; [reflexivity|]. repeat split; lia.
Qed.

Lemma incomplete_token_raises_witness :
  fst (_verify_captcha fixed_now webhook_up decimal_int submit_X always_incomplete no_interruption
         "gt" "challenge" "userid" (mkWorld [] [] 0))
  = Raise (KeyError "challenge").
Proof.
  pose proof (incomplete_token_raises fixed_now webhook_up decimal_int submit_X
                always_incomplete no_interruption
                "gt" "challenge" "userid" (JObj [("uuid", JStr "X")]) (JStr "X")
                (JObj [("info", JObj [("validate", JStr "v"); ("gt_user_id", JStr "g")])])
                JNull [("validate", JStr "v"); ("gt_user_id", JStr "g")]
                (mkWorld [] [] 0)
                eq_refl eq_refl eq_refl eq_refl eq_refl eq_refl eq_refl eq_refl) as H.
  destruct (_verify_captcha fixed_now webhook_up decimal_int submit_X always_incomplete no_interruption
              "gt" "challenge" "userid" (mkWorld [] [] 0)) as [r w'].
  exact (proj1 H).
Defined.

(** ** Whole cycles of the watch loop *)

Lemma cache_get_in user_id cache :
  In user_id (map fst cache) <-> cache_get user_id cache <> None.
Proof.
  induction cache as [|[k v] cache IH]; cbn [map fst In cache_get].
  - split; [intros []|intros H; now apply H].
  - destruct (Z.eqb_spec k user_id) as [->|Hne].
    + split; [discriminate|intros _; now left].
    + rewrite <- IH. split; [intros [H|H]; [contradiction|exact H]|intros H; now right].
Qed.

(** The pass for a key whose query succeeds stores the queried ranks. *)
Lemma watch_user_stores now post_reply name j p key st changed :
  In key (map fst (pcr_cache st)) ->
  let '(st1, _, flow1) :=
    watch_user now post_reply (QueryProfile name j p) key st changed in
  cache_get key (pcr_cache st1) = Some (j, p) /\ flow1 = ForNext.
Proof.
  intros Hin. apply cache_get_in in Hin.
  destruct (cache_get key (pcr_cache st)) as [[old_j old_p]|] eqn:Hk; [|congruence].
  destruct ((old_j =? j) && (old_p =? p))%bool eqn:E.
  - apply andb_true_iff in E as [Ej Ep].
    apply Z.eqb_eq in Ej, Ep. subst old_j old_p.
    rewrite (watch_user_same now post_reply name j p key st changed Hk).
    split; [exact Hk|reflexivity].
  - rewrite (watch_user_moved now post_reply name old_j old_p j p key st changed Hk E).
    split; [|reflexivity].
    unfold store_ranks. cbn [with_workwx with_cache with_counts pcr_cache].
    apply cache_get_set_same.
Qed.

Lemma for_users_stores now post_reply replies keys :
  (forall key, In key keys -> exists name j p, replies key = QueryProfile name j p) ->
  forall st changed user_id name j p,
  replies user_id = QueryProfile name j p ->
  (In user_id keys /\ In user_id (map fst (pcr_cache st)))
  \/ cache_get user_id (pcr_cache st) = Some (j, p) ->
  cache_get user_id
    (pcr_cache (fst (fst (for_users now post_reply replies keys st changed))))
    = Some (j, p).
Proof.
  induction keys as [|k keys IH]; intros Hall st changed user_id name j p Hr Hu.
  - cbn [for_users fst]. destruct Hu as [[[] _]|Hu]. exact Hu.
  - cbn [for_users].
    destruct (Hall k (or_introl eq_refl)) as (n0 & j0 & p0 & Hk).
    assert (Hrest : forall key, In key keys ->
                                exists name j p, replies key = QueryProfile name j p).
    { intros key Hin. apply Hall. now right. }
    pose proof (watch_user_effect now post_reply (replies k) k st changed) as Heff.
    pose proof (watch_user_frame now post_reply (replies k) k user_id name j p st changed)
      as Hfr.
    destruct (in_dec Z.eq_dec k (map fst (pcr_cache st))) as [Hin|Hout].
    + pose proof (watch_user_stores now post_reply n0 j0 p0 k st changed Hin) as Hst.
      rewrite <- Hk in Hst.
      destruct (watch_user now post_reply (replies k) k st changed) as [[st1 c1] f1].
      destruct Hst as [Hst ->]. destruct Heff as (Hkeys & _).
      cbn [fst] in Hfr. apply (IH Hrest st1 c1 user_id name j p Hr).
      destruct (Z.eq_dec k user_id) as [->|Hne].
      * right. rewrite Hr in Hk. injection Hk as <- <- <-. exact Hst.
      * destruct Hu as [[[Heq|Hin'] Hc]|Hu].
        -- contradiction.
        -- left. split; [exact Hin'|]. rewrite Hkeys. exact Hc.
        -- right. apply Hfr; [exact Hu|]. intros ->. contradiction Hne. reflexivity.
    + assert (Hnone : cache_get k (pcr_cache st) = None).
      { destruct (cache_get k (pcr_cache st)) eqn:E; [|reflexivity].
        contradiction Hout. apply cache_get_in. congruence. }
      unfold watch_user. rewrite Hnone.
      apply (IH Hrest st changed user_id name j p Hr).
      destruct Hu as [[[->|Hin'] Hc]|Hu]; [contradiction|left; split; assumption|].
      right. exact Hu.
Qed.

(** X11.  After a cycle in which every query succeeds, the cache holds, for
    every watched user, exactly the ranks that were queried for that user:
    whether or not they moved, whatever the cache held before, and whether or
    not the summary is taken by the webhook. *)
Theorem cache_follows_queries (now : nat -> string) (post_reply : nat -> option exn)
  (replies : Z -> query_reply)
  (st : watcher) (user_id : Z) (name : string) (j p : Z) :
  (forall key, In key (map fst (pcr_cache st)) ->
               exists name j p, replies key = QueryProfile name j p) ->
  In user_id (map fst (pcr_cache st)) ->
  replies user_id = QueryProfile name j p ->
  cache_get user_id (pcr_cache (fst (watch_cycle now post_reply replies st)))
  = Some (j, p).
Proof.
  intros Hall Hin Hr. rewrite watch_cycle_eq.
  pose proof (for_users_stores now post_reply replies (map fst (pcr_cache st)) Hall
                st false user_id name j p Hr (or_introl (conj Hin Hin))) as H.
  destruct (for_users now post_reply replies (map fst (pcr_cache st)) st false)
    as [[st1 c1] f1].
  cbn [fst] in H.
  destruct f1; cbn [fst]; try exact H;
    rewrite (proj2 (proj2 (proj2 (end_cycle_counts now post_reply st1 c1))));
    exact H.
Qed.

Lemma cache_follows_queries_witness :
  In 2 (map fst (pcr_cache two_users)) /\
  cache_get 2 (pcr_cache (fst (watch_cycle fixed_now webhook_up second_moved two_users)))
  = Some (5, 9).
Proof.
  assert (Hin : In 2 (map fst (pcr_cache two_users))) by (simpl; tauto).
  split; [exact Hin|].
  apply (cache_follows_queries fixed_now webhook_up second_moved two_users 2 "V" 5 9);
    [|exact Hin|reflexivity].
  intros key [<-|[<-|[]]].
  - exists "U", 100, 50. reflexivity.
  - exists "V", 5, 9. reflexivity.
Defined.

Lemma for_users_quiet now post_reply replies keys :
  forall st changed,
  (forall key, In key keys ->
               exists name j p, replies key = QueryProfile name j p /\
                                cache_get key (pcr_cache st) = Some (j, p)) ->
  let '(st1, changed1, flow1) := for_users now post_reply replies keys st changed in
  changed1 = changed /\
  flow1 = ForNext /\
  pcr_cache st1 = pcr_cache st /\
  watch_event st1 = watch_event st /\
  queue (workwx st1) = queue (workwx st) /\
  clock (workwx st1) = clock (workwx st) /\
  trace (workwx st1) = (trace (workwx st) ++ map EvQuery keys)%list /\
  user_query_error_count st1
  = match keys with [] => user_query_error_count st | _ => 0%nat end /\
  user_notify_error_count st1
  = match keys with [] => user_notify_error_count st | _ => 0%nat end.
Proof.
  induction keys as [|k keys IH]; intros st changed Hall; cbn [for_users].
  - cbn [map]. rewrite app_nil_r. do 8 (split; [reflexivity|]). reflexivity.
  - destruct (Hall k (or_introl eq_refl)) as (name & j & p & Hr & Hk).
    rewrite Hr, (watch_user_same now post_reply name j p k st changed Hk).
    set (st0 := with_counts 0 0 (with_workwx (emit (EvQuery k)) st)).
    specialize (IH st0 changed).
    destruct (for_users now post_reply replies keys st0 changed) as [[st1 c1] f1].
    destruct IH as (Hc & Hf & Hp & He & Hq & Hcl & Ht & Hn1 & Hn2).
    { intros key Hin. apply Hall. now right. }
    split; [exact Hc|]. split; [exact Hf|]. split; [exact Hp|]. split; [exact He|].
    split; [exact Hq|]. split; [exact Hcl|]. split; [|split].
    + rewrite Ht. unfold st0. cbn [with_counts with_workwx workwx emit trace map].
      rewrite <- app_assoc. reflexivity.
    + rewrite Hn1. destruct keys; reflexivity.
    + rewrite Hn2. destruct keys; reflexivity.
Qed.

(** X12.  A cycle that finds every watched user where the cache has it is
    silent: it makes one query per watched user, in the order of the cache,
    and sleeps 3 seconds; nothing is put on the queue or delivered, the clock
    is not read, the cache is as before, the cycle ends without an exception,
    and both error counters are 0 after it when at least one user is
    watched. *)
Theorem quiet_cycle (now : nat -> string) (post_reply : nat -> option exn)
  (replies : Z -> query_reply) (st : watcher) :
  (forall key, In key (map fst (pcr_cache st)) ->
               exists name j p, replies key = QueryProfile name j p /\
                                cache_get key (pcr_cache st) = Some (j, p)) ->
  let '(st1, r) := watch_cycle now post_reply replies st in
  r = None /\
  pcr_cache st1 = pcr_cache st /\
  queue (workwx st1) = queue (workwx st) /\
  clock (workwx st1) = clock (workwx st) /\
  trace (workwx st1)
  = (trace (workwx st) ++ map EvQuery (map fst (pcr_cache st)) ++ [EvSleep 3])%list /\
  (pcr_cache st <> [] ->
   user_query_error_count st1 = 0%nat /\ user_notify_error_count st1 = 0%nat).
Proof.
  intros Hall. rewrite watch_cycle_eq.
  pose proof (for_users_quiet now post_reply replies (map fst (pcr_cache st)) st false
                Hall) as H.
  destruct (for_users now post_reply replies (map fst (pcr_cache st)) st false)
    as [[st1 c1] f1].
  destruct H as (-> & -> & Hp & He & Hq & Hcl & Ht & Hn1 & Hn2).
  unfold end_cycle.
  cbn [with_workwx pcr_cache workwx sleep emit queue clock trace
       user_query_error_count user_notify_error_count].
  split; [reflexivity|]. split; [exact Hp|]. split; [exact Hq|]. split; [exact Hcl|].
  split.
  - rewrite Ht, <- app_assoc. reflexivity.
  - intros Hne. rewrite Hn1, Hn2.
    destruct (pcr_cache st); [now contradiction Hne|split; reflexivity].
Qed.

Lemma quiet_cycle_witness :
  trace (workwx (fst (watch_cycle fixed_now webhook_up nobody_moved two_users)))
  = [EvQuery 1; EvQuery 2; EvSleep 3].
Proof.
  assert (H : forall key, In key (map fst (pcr_cache two_users)) ->
                exists name j p, nobody_moved key = QueryProfile name j p /\
                                 cache_get key (pcr_cache two_users) = Some (j, p)).
  { intros key [<-|[<-|[]]].
    - exists "U", 100, 50. split; reflexivity.
    - exists "V", 7, 7. split; reflexivity. }
  pose proof (quiet_cycle fixed_now webhook_up nobody_moved two_users H) as Hq.
  destruct (watch_cycle fixed_now webhook_up nobody_moved two_users) as [st1 r].
  exact (proj1 (proj2 (proj2 (proj2 (proj2 Hq))))).
Defined.

(** ** The login loop *)

Lemma send_message_returns now post_reply message w :
  post_reply (clock w) = None ->
  send_message now post_reply message false w
  = (Ok tt, snd (send_message now post_reply message false w)).
Proof. intros H. rewrite send_message_flush, H. reflexivity. Qed.

Lemma send_message_raises now post_reply message w e :
  post_reply (clock w) = Some e ->
  send_message now post_reply message false w
  = (Raise e, snd (send_message now post_reply message false w)).
Proof. intros H. rewrite send_message_flush, H. reflexivity. Qed.

(** X13.  How the login loop ends.  When it is left by its condition, either
    no pass was made and nothing happened at all, or the last action was the
    delivery of the success notice, which leaves nothing pending.  When it
    raises, either the error is one the SDK's login raised, and the loop did
    nothing after it (no success notice follows a failed login), or it is the
    error of the webhook at the POST of the success notice, after a login that
    the SDK had accepted. *)
Theorem login_outcomes (now : nat -> string) (post_reply : nat -> option exn)
  (should_login : nat -> bool)
  (sdk_login : nat -> M unit) (fuel k : nat) (w w' : world) (r : result bool) :
  login now post_reply should_login sdk_login fuel k w = (r, w') ->
  match r with
  | Ok true =>
      (should_login k = false /\ w' = w) \/
      (should_login k = true /\ queue w' = [] /\
       exists w0, send_message now post_reply "登录成功" false w0 = (Ok tt, w'))
  | Ok false => should_login k = true
  | Raise e =>
      should_login k = true /\
      ((exists j w0, sdk_login j w0 = (Raise e, w')) \/
       (queue w' = [] /\
        exists j w0 w1,
          sdk_login j w0 = (Ok tt, w1) /\
          send_message now post_reply "登录成功" false w1 = (Raise e, w')))
  end.
Proof.
  revert k w w' r.
  induction fuel as [|fuel IH]; intros k w w' r H; cbn [login] in H.
  - destruct (should_login k) eqn:Hs; injection H as <- <-; [reflexivity|].
    left. split; reflexivity.
  - destruct (should_login k) eqn:Hs.
    + rewrite bind_send in H. cbv iota in H. unfold bind at 1 in H.
      destruct (sdk_login k (snd (send_message now post_reply "登录中" true w)))
        as [[[]|e] w1] eqn:Hsdk.
      * rewrite bind_send in H. cbv iota in H.
        destruct (post_reply (clock w1)) as [e|] eqn:Hpost.
        -- pose proof (f_equal fst H) as Hr. pose proof (f_equal snd H) as Hw.
           cbn [fst snd] in Hr, Hw. subst r w'. clear H.
           split; [reflexivity|]. right.
           split; [rewrite send_message_world; reflexivity|].
           exists k, (snd (send_message now post_reply "登录中" true w)), w1.
           split; [exact Hsdk|]. apply send_message_raises. exact Hpost.
        -- specialize (IH (S k) _ _ _ H). destruct r as [[|]|e].
           ++ right. split; [reflexivity|].
              destruct IH as [[_ ->]|(_ & Hq & Hw)].
              ** split; [rewrite send_message_world; reflexivity|].
                 exists w1. apply send_message_returns. exact Hpost.
              ** split; assumption.
           ++ reflexivity.
           ++ split; [reflexivity|]. exact (proj2 IH).
      * injection H as <- <-. split; [reflexivity|]. left.
        exists k, (snd (send_message now post_reply "登录中" true w)). exact Hsdk.
    + injection H as <- <-. left. split; reflexivity.
Qed.

Lemma login_outcomes_witness :
  exists w',
    login fixed_now webhook_up login_once sdk_accepts 2 0 (mkWorld [] [] 0)
    = (Ok true, w') /\
    queue w' = [].
Proof.
  eexists. split; [vm_compute; reflexivity|].
  match goal with
  | |- queue ?W = [] =>
      destruct (login_outcomes fixed_now webhook_up login_once sdk_accepts 2 0
                  (mkWorld [] [] 0) W (Ok true)) as [[H _]|(_ & H & _)];
        [vm_compute; reflexivity|discriminate H|exact H]
  end.
Defined.

(** X14.  A login the SDK rejects through the error callback.  When the
    session asks for a login and the SDK calls [_verify_error] and raises, the
    login raises the same error after exactly one POST: the failure notice,
    together with everything pending and the [登录中] notice of the pass, in
    the order sent.  Nothing is left pending. *)
Theorem rejected_login_is_reported (now : nat -> string)
  (post_reply : nat -> option exn) (should_login : nat -> bool)
  (sdk_login : nat -> M unit) (fuel k : nat) (message : string) (e : exn)
  (w : world) :
  should_login k = true ->
  (forall w0, sdk_login k w0
              = (Raise e, snd (_verify_error now post_reply message w0))) ->
  let '(r, w') := login now post_reply should_login sdk_login (S fuel) k w in
  r = Raise e /\
  queue w' = [] /\
  trace w'
  = (trace w
     ++ [EvPut (stamp now (clock w) "登录中");
         EvPost (join (LF ++ LF)
                   (queue w ++ [stamp now (clock w) "登录中";
                                stamp now (S (clock w)) ("登录失败：" ++ message)]))])%list.
Proof.
  intros Hs Hsdk. cbn [login]. rewrite Hs, bind_send. cbv iota.
  unfold bind at 1. rewrite Hsdk. unfold _verify_error.
  rewrite !send_message_world. cbn [queue trace clock].
  rewrite <- !app_assoc. cbn [app]. repeat split.
Qed.

Lemma rejected_login_is_reported_witness :
  login_once 0 = true /\
  posts (trace (snd (login fixed_now webhook_up login_once sdk_rejects 1 0
                       (mkWorld [] [] 0))))
  = [join (LF ++ LF) [stamp fixed_now 0 "登录中";
                      stamp fixed_now 1 "登录失败：密码错误"]].
Proof.
  split; [reflexivity|].
  pose proof (rejected_login_is_reported fixed_now webhook_up login_once sdk_rejects 0 0
                "密码错误" (TransportError "密码错误") (mkWorld [] [] 0)
                eq_refl (fun w0 => eq_refl)) as H.
  destruct (login fixed_now webhook_up login_once sdk_rejects 1 0 (mkWorld [] [] 0))
    as [r w'].
  destruct H as (_ & _ & H). cbn [snd]. rewrite H. reflexivity.
Defined.

(** ** The outer loop *)


